(** * Annotation-app: the annotation session of [annotation_app.py]

    A shallow embedding of the Streamlit script [src/annotation_app.py]:
    the session initialisation block, the progress / review-all guard,
    the review page with its final submit, and the annotation page with
    its Back and Save handlers.  One execution of the script is the
    function [run]; the user's click, the values the widgets hand back,
    the clock and the outcome of file I/O are its inputs.  What
    [load_samples] and [load_annotations] return is the input of the
    initialisation. *)

From Stdlib Require Import ZArith Lia Ascii String.
From stdpp Require Import base option list strings gmap relations.

Set Warnings "-clear-no-such-hyp".

Open Scope string_scope.
Open Scope list_scope.
Open Scope nat_scope.

(** ** Python values *)

(** The JSON scalars that reach the script: [null], booleans, integers
    and strings. *)
Inductive pyval : Type :=
  | PNone
  | PBool (b : bool)
  | PInt (z : Z)
  | PStr (s : string).

#[global] Instance pyval_eq_dec : EqDecision pyval.
Proof. solve_decision. Defined.

(** Python truth value, as used by [if anomaly else "N/A"]. *)
Definition truthy (v : pyval) : bool :=
  match v with
  | PNone => false
  | PBool b => b
  | PInt z => negb (z =? 0)%Z
  | PStr s => negb (bool_decide (s = ""))
  end.

(** Sample identifiers: JSON strings or integers. *)
Inductive sid : Type :=
  | IdInt (z : Z)
  | IdStr (s : string).

#[global] Instance sid_eq_dec : EqDecision sid.
Proof. solve_decision. Defined.

(** ** Exceptions and results *)

Inductive exn : Type :=
  | ValueError            (* list.index on a value that is not in the list *)
  | IndexError            (* list subscript out of range *)
  | StreamlitAPIException (* a widget refuses its arguments *)
  | OSError.              (* file I/O failure *)

Inductive result (A : Type) : Type :=
  | Ok (a : A)
  | Raise (e : exn).
Arguments Ok {A} a.
Arguments Raise {A} e.

Definition rbind {A B : Type} (r : result A) (k : A -> result B) : result B :=
  match r with
  | Ok a => k a
  | Raise e => Raise e
  end.

Notation "'let?' x := r 'in' k" := (rbind r (fun x => k))
  (at level 10, x name, r at level 100, k at level 200).

(** ** Records of the data files *)

(** An entry of [data/samples.json].  [s["id"]], [s["image"]] and
    [s["vlm_output"]] are subscripted; [anomaly_label] is read with
    [sample.get("anomaly_label", 0)], so it may be absent. *)
Record sample : Type := {
  s_id : sid;
  s_image : string;
  s_vlm_output : string;
  s_anomaly_label : option pyval
}.

(** An entry of [annotations/<annotator>.json].  [a["sample_id"]] is
    subscripted; every other key is read with [.get(key, default)]. *)
Record annotation : Type := {
  a_sample_id : sid;
  a_annotator_id : option pyval;
  a_anomaly_presence : option pyval;
  a_type_correctness : option pyval;
  a_localization_score : option pyval;
  a_grounded_reasoning : option pyval;
  a_timestamp : option pyval
}.

(** ** Python dictionaries keyed by sample id

    A [dict] keeps its keys in insertion order; assigning to a key that
    is present replaces the value in place, assigning to a new key
    appends it. *)
Section pydict.
Context {V : Type}.

Fixpoint dict_get (k : sid) (d : list (sid * V)) : option V :=
  match d with
  | [] => None
  | (k', v) :: d' => if decide (k = k') then Some v else dict_get k d'
  end.

Fixpoint dict_set (k : sid) (v : V) (d : list (sid * V)) : list (sid * V) :=
  match d with
  | [] => [(k, v)]
  | (k', v') :: d' =>
      if decide (k = k') then (k', v) :: d' else (k', v') :: dict_set k v d'
  end.

Definition dict_len (d : list (sid * V)) : nat := length d.
Definition dict_keys (d : list (sid * V)) : list sid := d.*1.
Definition dict_values (d : list (sid * V)) : list V := d.*2.
End pydict.

(** [{a["sample_id"]: a for a in existing_annotations}] *)
Definition dict_by_sample_id (l : list annotation) : list (sid * annotation) :=
  fold_left (fun d a => dict_set (a_sample_id a) a d) l [].

(** ** Session state *)

(** The keys of [st.session_state] once the session is initialised.
    [current_idx] is a natural number: it starts at 0, is set to a
    position of the queue, incremented, or decremented under the guard
    [idx > 0]. *)
Record session : Type := {
  annotator_id : string;
  sample_order : list sample;
  total_samples : nat;
  current_idx : nat;
  annotations_buffer : list (sid * annotation);
  review_mode : bool
}.

Definition set_current_idx (i : nat) (st : session) : session :=
  {| annotator_id := annotator_id st;
     sample_order := sample_order st;
     total_samples := total_samples st;
     current_idx := i;
     annotations_buffer := annotations_buffer st;
     review_mode := review_mode st |}.

Definition set_review_mode (b : bool) (st : session) : session :=
  {| annotator_id := annotator_id st;
     sample_order := sample_order st;
     total_samples := total_samples st;
     current_idx := current_idx st;
     annotations_buffer := annotations_buffer st;
     review_mode := b |}.

Definition set_annotations_buffer (d : list (sid * annotation)) (st : session)
  : session :=
  {| annotator_id := annotator_id st;
     sample_order := sample_order st;
     total_samples := total_samples st;
     current_idx := current_idx st;
     annotations_buffer := d;
     review_mode := review_mode st |}.

(** ** Inputs of one execution of the script *)

(** The button that was clicked, if any. *)
Inductive event : Type :=
  | NoClick
  | ClickReviewAll                 (* "Review all annotations" *)
  | ClickReviewItem (i : nat)      (* the button with key review_i *)
  | ClickFinalSubmit               (* "Final submit" *)
  | ClickBack                      (* "Back" *)
  | ClickSave.                     (* "Save and continue" *)

#[global] Instance event_eq_dec : EqDecision event.
Proof. solve_decision. Defined.

(** Where [save_all_annotations] fails, if it does. *)
Inductive fault : Type :=
  | NoFault
  | FailMakedirs           (* os.makedirs raises *)
  | FailOpen               (* open(path, "w") raises; the file is not touched *)
  | FailWrite (k : nat).   (* the write of chunk number k raises (from 0) *)

#[global] Instance fault_eq_dec : EqDecision fault.
Proof. solve_decision. Defined.

Record inputs : Type := {
  in_anomaly_presence : pyval;    (* what the first st.radio returns *)
  in_type_correctness : pyval;    (* what the second st.radio returns *)
  in_localization_score : pyval;  (* what the first st.slider returns *)
  in_grounded_reasoning : pyval;  (* what the second st.slider returns *)
  in_utcnow : string;             (* datetime.utcnow().isoformat() *)
  in_media_loads : bool;          (* Image.open and load_text return *)
  in_fault : fault
}.

(** What an execution leaves behind. *)
Inductive outcome : Type :=
  | Stopped (st : session)          (* st.stop(), or the end of the script *)
  | Rerun (st : session)            (* st.rerun() *)
  | Raised (e : exn) (st : session) (* an exception left the script *)
  | Cleared.                        (* st.session_state.clear() *)

Definition session_after (o : outcome) : option session :=
  match o with
  | Stopped st | Rerun st | Raised _ st => Some st
  | Cleared => None
  end.

(** ** Utilities *)

Definition ANNOTATIONS_DIR : string := "annotations".

(** [os.path.join] on two components (POSIX). *)
Definition ends_with_sep (a : string) : bool :=
  match String.get (String.length a - 1) a with
  | Some c => bool_decide (c = "/"%char)
  | None => false
  end.

Definition path_join (a b : string) : string :=
  match b with
  | String "/" _ => b
  | _ => if bool_decide (a = "") || ends_with_sep a
         then a +:+ b else a +:+ "/" +:+ b
  end.

Definition get_annotation_path (annotator : string) : string :=
  path_join ANNOTATIONS_DIR (annotator +:+ ".json").

(** [[...].index(v)] on a list of string literals. *)
Fixpoint list_index (opts : list string) (v : pyval) : result nat :=
  match opts with
  | [] => Raise ValueError
  | o :: rest =>
      if decide (v = PStr o) then Ok 0
      else let? i := list_index rest v in Ok (S i)
  end.

(** [existing.get(key, dflt)] where [existing] is
    [annotations_buffer.get(sample["id"], {})]. *)
Definition get_or (existing : option annotation)
    (key : annotation -> option pyval) (dflt : pyval) : pyval :=
  match existing with
  | Some a => default dflt (key a)
  | None => dflt
  end.

Definition presence_options : list string := ["yes"; "no"; "unsure"].
Definition type_options : list string := ["correct"; "partial"; "incorrect"].

(** The values the four widgets of the annotation form evaluate to. *)
Record form : Type := {
  f_anomaly_presence : pyval;
  f_type_correctness : pyval;
  f_localization_score : pyval;
  f_grounded_reasoning : pyval
}.

(** [st.radio(label, options, index=i)]: the index has to be a position
    of [options]; the call evaluates to the current selection, which
    the run takes from its inputs ([radio_returns] below says which
    values a selection can be). *)
Definition st_radio (opts : list string) (i : nat) (selected : pyval)
  : result pyval :=
  if decide (i < length opts) then Ok selected else Raise StreamlitAPIException.

(** ** The script *)

Section script.

(** [random.shuffle]: the order it leaves the list in. *)
Variable shuffle : list sample -> list sample.

(** [st.slider(label, lo, hi, value=v)]: whether the widget takes [v]
    as its initial value. *)
Variable slider_accepts : Z -> Z -> pyval -> bool.

(** [json.dump(annotations, f, indent=2)]: the chunks of text it
    passes to [f.write], in order. *)
Variable json_chunks : list annotation -> list string.

Definition st_slider (lo hi : Z) (value : pyval) (selected : pyval)
  : result pyval :=
  if slider_accepts lo hi value then Ok selected
  else Raise StreamlitAPIException.

(** *** Session initialisation (lines 101-116) *)

Definition init_session (annotator : string) (samples : list sample)
    (existing_annotations : list annotation) : session :=
  let annotated_ids := a_sample_id <$> existing_annotations in
  let remaining := filter (fun s => s_id s ∉ annotated_ids) samples in
  {| annotator_id := annotator;
     sample_order := shuffle remaining;
     total_samples := length samples;
     current_idx := 0;
     annotations_buffer := dict_by_sample_id existing_annotations;
     review_mode := false |}.

(** *** Progress and the review-all guard (lines 122-131) *)

Definition done (st : session) : nat := dict_len (annotations_buffer st).
Definition total (st : session) : nat := total_samples st.

Definition review_all_offered (st : session) : bool :=
  (dict_len (annotations_buffer st) =? length (sample_order st))
  && negb (review_mode st).

(** *** The store (lines 38-42) *)

(** [f.write] of the chunks one after the other, appending to the
    file; [n] counts the writes done so far. *)
Fixpoint write_chunks (path : string) (chunks : list string) (n : nat)
    (flt : fault) (fs : gmap string string)
  : gmap string string * result unit :=
  match chunks with
  | [] => (fs, Ok tt)
  | c :: rest =>
      if decide (flt = FailWrite n) then (fs, Raise OSError)
      else write_chunks path rest (S n) flt
             (<[path := default "" (fs !! path) +:+ c]> fs)
  end.

Definition save_all_annotations (annotator : string)
    (annotations : list annotation) (flt : fault) (fs : gmap string string)
  : gmap string string * result unit :=
  match flt with
  | FailMakedirs => (fs, Raise OSError)
  | _ =>
      let path := get_annotation_path annotator in
      match flt with
      | FailOpen => (fs, Raise OSError)
      | _ =>
          (* open(path, "w") leaves an empty file *)
          write_chunks path (json_chunks annotations) 0 flt
            (<[path := ""]> fs)
      end
  end.

(** *** Review mode (lines 136-162) *)

Definition review_page (ev : event) (inp : inputs) (st : session)
    (fs : gmap string string) : gmap string string * outcome :=
  match ev with
  | ClickReviewItem i =>
      if decide (i < length (sample_order st))
      then (fs, Rerun (set_review_mode false (set_current_idx i st)))
      else (fs, Stopped st)
  | ClickFinalSubmit =>
      match save_all_annotations (annotator_id st)
              (dict_values (annotations_buffer st)) (in_fault inp) fs with
      | (fs', Ok _) => (fs', Cleared)
      | (fs', Raise e) => (fs', Raised e st)
      end
  | _ => (fs, Stopped st)
  end.

(** *** Annotation mode (lines 168-254) *)

(** Lines 184-228: the media and the four widgets. *)
Definition render_form (anomaly : bool) (existing : option annotation)
    (inp : inputs) : result form :=
  if negb (in_media_loads inp) then Raise OSError else
  let? i := list_index presence_options
              (get_or existing a_anomaly_presence (PStr "yes")) in
  let? anomaly_presence :=
    st_radio presence_options i (in_anomaly_presence inp) in
  let? type_correctness :=
    (if anomaly then
       let? j := list_index type_options
                   (get_or existing a_type_correctness (PStr "correct")) in
       st_radio type_options j (in_type_correctness inp)
     else Ok (PStr "N/A")) in
  let? localization_score :=
    (if anomaly then
       st_slider 1 5 (get_or existing a_localization_score (PInt 3))
         (in_localization_score inp)
     else Ok (PStr "N/A")) in
  let? grounded_reasoning :=
    st_slider 1 5 (get_or existing a_grounded_reasoning (PInt 3))
      (in_grounded_reasoning inp) in
  Ok {| f_anomaly_presence := anomaly_presence;
        f_type_correctness := type_correctness;
        f_localization_score := localization_score;
        f_grounded_reasoning := grounded_reasoning |}.

(** Lines 239-247: the dictionary stored by the save handler. *)
Definition saved_record (smp : sample) (annotator : string) (f : form)
    (now : string) : annotation :=
  {| a_sample_id := s_id smp;
     a_annotator_id := Some (PStr annotator);
     a_anomaly_presence := Some (f_anomaly_presence f);
     a_type_correctness := Some (f_type_correctness f);
     a_localization_score := Some (f_localization_score f);
     a_grounded_reasoning := Some (f_grounded_reasoning f);
     a_timestamp := Some (PStr now) |}.

Definition annotation_page (ev : event) (inp : inputs) (st0 : session)
  : outcome :=
  let samples := sample_order st0 in
  if decide (samples = []) then Stopped st0 else
  let idx := current_idx st0 `min` (length samples - 1) in
  let st := set_current_idx idx st0 in
  match samples !! idx with
  | None => Raised IndexError st
  | Some smp =>
      let existing := dict_get (s_id smp) (annotations_buffer st) in
      let anomaly := truthy (default (PInt 0) (s_anomaly_label smp)) in
      match render_form anomaly existing inp with
      | Raise e => Raised e st
      | Ok f =>
          match ev with
          | ClickBack =>
              if decide (0 < idx)
              then Rerun (set_current_idx (current_idx st - 1) st)
              else Stopped st
          | ClickSave =>
              let st1 :=
                set_annotations_buffer
                  (dict_set (s_id smp)
                     (saved_record smp (annotator_id st) f (in_utcnow inp))
                     (annotations_buffer st)) st in
              if decide (idx < length samples - 1)
              then Rerun (set_current_idx (current_idx st1 + 1) st1)
              else Rerun (set_review_mode true st1)
          | _ => Stopped st
          end
      end
  end.

(** *** One execution of the script, from the progress bar on

    Line 126 draws the bar from [done / total] before any page; [run]
    is the script from there on.  The bar is drawn whenever
    [done st <= total st], which holds in the sessions whose prior
    annotations carry ids of catalog samples. *)

Definition run (ev : event) (inp : inputs) (st : session)
    (fs : gmap string string) : gmap string string * outcome :=
  if review_all_offered st && bool_decide (ev = ClickReviewAll)
  then (fs, Rerun (set_review_mode true st))
  else if review_mode st then review_page ev inp st fs
  else (fs, annotation_page ev inp st).

(** A click with the execution it triggers and, after [st.rerun()],
    the execution that follows with no button pressed. *)
Definition interact (ev : event) (inp : inputs) (st : session)
    (fs : gmap string string) : gmap string string * outcome :=
  match run ev inp st fs with
  | (fs', Rerun st') => run NoClick inp st' fs'
  | r => r
  end.

(** [st'] is the session state after one interaction from [st]. *)
Definition step (st st' : session) : Prop :=
  exists ev inp fs, session_after (interact ev inp st fs).2 = Some st'.

End script.

(** ** Derived notions used in the statements *)

(** Lines 174-177: the sample the annotation page shows. *)
Definition current_sample (st : session) : option sample :=
  sample_order st !! (current_idx st `min` (length (sample_order st) - 1)).

(** [sample.get("anomaly_label", 0)] as a truth value. *)
Definition anomaly_of (smp : sample) : bool :=
  truthy (default (PInt 0) (s_anomaly_label smp)).

(** Every sample of the queue has an entry in the buffer. *)
Definition queue_fully_answered (st : session) : bool :=
  forallb (fun s => bool_decide (is_Some (dict_get (s_id s) (annotations_buffer st))))
    (sample_order st).

(** The value domains of the answer fields. *)
Definition one_of (opts : list string) (v : pyval) : bool :=
  match v with
  | PStr s => bool_decide (s ∈ opts)
  | _ => false
  end.

Definition in_1_to_5 (v : pyval) : bool :=
  match v with
  | PInt z => (1 <=? z)%Z && (z <=? 5)%Z
  | _ => false
  end.

(** The validation that the specification attributes to save, in the
    specification's words: [anomaly_presence] in yes/no/unsure,
    [grounded_reasoning] in 1..5 and, when the two conditional fields
    apply, [type_correctness] in correct/partial/incorrect and
    [localization_score] in 1..5. *)
Definition spec_payload_valid (anomaly : bool) (inp : inputs) : bool :=
  one_of presence_options (in_anomaly_presence inp)
  && in_1_to_5 (in_grounded_reasoning inp)
  && (if anomaly
      then one_of type_options (in_type_correctness inp)
           && in_1_to_5 (in_localization_score inp)
      else true).

(** ** Concrete instances and data for the examples *)

(** A shuffle that happens to leave the list as it is. *)
Definition keep_order (l : list sample) : list sample := l.

(** A slider that takes exactly the integers of its range. *)
Definition range_slider (lo hi : Z) (v : pyval) : bool :=
  match v with
  | PInt z => (lo <=? z)%Z && (z <=? hi)%Z
  | _ => false
  end.

(** A stand-in for the JSON text: brackets around one chunk per entry. *)
Definition bracket_chunks (l : list annotation) : list string :=
  "[" :: ((fun _ => "{}") <$> l) ++ ["]"].

Definition S1 : sample :=
  {| s_id := IdStr "S1"; s_image := "img/1.png"; s_vlm_output := "out/1.txt";
     s_anomaly_label := Some (PInt 1) |}.
Definition S2 : sample :=
  {| s_id := IdStr "S2"; s_image := "img/2.png"; s_vlm_output := "out/2.txt";
     s_anomaly_label := Some (PInt 0) |}.
Definition S3 : sample :=
  {| s_id := IdStr "S3"; s_image := "img/3.png"; s_vlm_output := "out/3.txt";
     s_anomaly_label := Some (PInt 1) |}.

(** An annotation as the save handler writes it. *)
Definition answer (k : string) (tc loc : pyval) : annotation :=
  {| a_sample_id := IdStr k;
     a_annotator_id := Some (PStr "A1");
     a_anomaly_presence := Some (PStr "yes");
     a_type_correctness := Some tc;
     a_localization_score := Some loc;
     a_grounded_reasoning := Some (PInt 4);
     a_timestamp := Some (PStr "2024-01-01T00:00:00") |}.

(** Widget values inside the domains. *)
Definition good_inputs : inputs :=
  {| in_anomaly_presence := PStr "no";
     in_type_correctness := PStr "partial";
     in_localization_score := PInt 2;
     in_grounded_reasoning := PInt 5;
     in_utcnow := "2024-05-06T07:08:09";
     in_media_loads := true;
     in_fault := NoFault |}.

Definition with_fault (flt : fault) (inp : inputs) : inputs :=
  {| in_anomaly_presence := in_anomaly_presence inp;
     in_type_correctness := in_type_correctness inp;
     in_localization_score := in_localization_score inp;
     in_grounded_reasoning := in_grounded_reasoning inp;
     in_utcnow := in_utcnow inp;
     in_media_loads := in_media_loads inp;
     in_fault := flt |}.

(** A fresh session over the three samples. *)
Definition fresh3 : session :=
  init_session keep_order "A1" [S1; S2; S3] [].

(** The inputs of a run with the four widget values replaced. *)
Definition with_answer (ap tc loc gr : pyval) (inp : inputs) : inputs :=
  {| in_anomaly_presence := ap;
     in_type_correctness := tc;
     in_localization_score := loc;
     in_grounded_reasoning := gr;
     in_utcnow := in_utcnow inp;
     in_media_loads := in_media_loads inp;
     in_fault := in_fault inp |}.


(** A session in which the first two samples have been answered and the
    cursor is on the second. *)
Definition midway : session :=
  {| annotator_id := "A1";
     sample_order := [S1; S2; S3];
     total_samples := 3;
     current_idx := 1;
     annotations_buffer :=
       [(IdStr "S1", answer "S1" (PStr "correct") (PInt 4));
        (IdStr "S2", answer "S2" (PStr "correct") (PInt 4))];
     review_mode := false |}.

(** The buffer has distinct keys, all among [ids], and so are the ids of
    the queue. *)
Definition within (ids : list sid) (st : session) : Prop :=
  NoDup (dict_keys (annotations_buffer st))
  /\ (forall k, k ∈ dict_keys (annotations_buffer st) -> k ∈ ids)
  /\ (forall smp, smp ∈ sample_order st -> s_id smp ∈ ids).

(** The size law of the queue in the specification's words: with
    distinct ids in the catalog and in the prior annotations,
    |queue| + |A| = |C|. *)
Definition spec_queue_size_law (shuffle : list sample -> list sample)
    (annotator : string) (C : list sample) (A : list annotation) : Prop :=
  NoDup (s_id <$> C) -> NoDup (a_sample_id <$> A) ->
  length (sample_order (init_session shuffle annotator C A)) + length A
  = length C.

(** The initial mode in the specification's words: Reviewing exactly
    when the queue is empty. *)
Definition spec_initial_mode (st : session) : Prop :=
  review_mode st = bool_decide (sample_order st = []).

(** The bound on the progress in the specification's words: in every
    state of a session, completed is at most the size of the catalog. *)
Definition spec_progress_bounded (shuffle : list sample -> list sample)
    (slider_accepts : Z -> Z -> pyval -> bool)
    (json_chunks : list annotation -> list string)
    (annotator : string) (C : list sample) (A : list annotation) : Prop :=
  forall st,
    rtc (step slider_accepts json_chunks)
      (init_session shuffle annotator C A) st ->
    done st <= total st.

(** The commit in the specification's words: either it goes through, or
    the session is left as it was and so is the store. *)
Definition spec_commit_atomic (slider_accepts : Z -> Z -> pyval -> bool)
    (json_chunks : list annotation -> list string)
    (st : session) (inp : inputs) (fs : gmap string string) : Prop :=
  forall fs' o,
    run slider_accepts json_chunks ClickFinalSubmit inp st fs = (fs', o) ->
    o = Cleared \/ (session_after o = Some st /\ fs' = fs).

(** The session state after an interaction of the examples. *)
Definition state_after (ev : event) (inp : inputs) (st : session) : session :=
  default st
    (session_after (interact range_slider bracket_chunks ev inp st ∅).2).

(** A session resumed over the three samples with S1 answered before. *)
Definition resumed : session :=
  init_session keep_order "A1" [S1; S2; S3]
    [answer "S1" (PStr "correct") (PInt 4)].

(** ... after the save of S2, *)
Definition resumed_one_saved : session :=
  state_after ClickSave good_inputs resumed.

(** ... and after the save of S3 and the way back from the review page
    to the first sample of the queue. *)
Definition resumed_all_saved : session :=
  state_after (ClickReviewItem 0) good_inputs
    (state_after ClickSave good_inputs resumed_one_saved).

(** A session in review mode with the three samples answered. *)
Definition reviewing3 : session :=
  state_after ClickSave good_inputs
    (state_after ClickSave good_inputs
       (state_after ClickSave good_inputs fresh3)).

(** The store with an earlier file of annotator A1. *)
Definition old_store : gmap string string :=
  {[ "annotations/A1.json" := "[{}]" ]}.

(** A catalog entry with the id of S1 and no anomaly, and the session
    over the catalog [S1_no_anomaly; S1] after the save of its first
    entry: the cursor is on S1 and the buffer holds, under the id they
    share, the record with "N/A" in the two conditional fields. *)
Definition S1_no_anomaly : sample :=
  {| s_id := IdStr "S1"; s_image := "img/1b.png";
     s_vlm_output := "out/1b.txt"; s_anomaly_label := Some (PInt 0) |}.

Definition shared_id_session : session :=
  state_after ClickSave good_inputs
    (init_session keep_order "A1" [S1_no_anomaly; S1] []).

(** The text a sequence of writes leaves in an empty file. *)
Definition written (chunks : list string) : string :=
  foldr String.append "" chunks.

(** ** The other utilities, the annotator gate and the review list *)

(** [s.endswith(suffix)]: some tail of [s] is [suffix]. *)
Fixpoint endswith (s suffix : string) : bool :=
  bool_decide (s = suffix)
  || match s with
     | "" => false
     | String _ s' => endswith s' suffix
     end.

(** [s.replace(old, new)] for a non-empty [old]: a scan from the left
    that, where [old] starts, puts [new] and passes over the rest of the
    occurrence ([skip] characters are still to pass). *)
Fixpoint replace_scan (old new : string) (skip : nat) (s : string) : string :=
  match s with
  | "" => ""
  | String c s' =>
      match skip with
      | S k => replace_scan old new k s'
      | 0 =>
          if String.prefix old (String c s')
          then new +:+ replace_scan old new (String.length old - 1) s'
          else String c (replace_scan old new 0 s')
      end
  end.

(** With an empty [old], [new] goes before every character and at the
    end. *)
Fixpoint replace_empty (new s : string) : string :=
  new +:+ match s with
          | "" => ""
          | String c s' => String c (replace_empty new s')
          end.

Definition str_replace (old new s : string) : string :=
  if bool_decide (old = "") then replace_empty new s
  else replace_scan old new 0 s.

(** What is at [ANNOTATIONS_DIR]: nothing, something that is not a
    directory, or a directory with the names [os.listdir] returns. *)
Inductive dir_status : Type :=
  | Missing
  | NotADirectory
  | Listing (names : list string).

(** Lines 19-26. *)
Definition get_existing_annotators (d : dir_status) : result (list string) :=
  match d with
  | Missing => Ok []
  | NotADirectory => Raise OSError
  | Listing names =>
      Ok ((fun f => str_replace ".json" "" f)
            <$> filter (fun f => endswith f ".json" = true) names)
  end.

Section loading.

(** [random.shuffle], as in the script. *)
Variable shuffle : list sample -> list sample.

(** [json.load] on the text of an annotation file. *)
Variable json_load : string -> result (list annotation).

(** Lines 31-36; [readable] tells whether [open(path, "r")] and the
    reading go through. *)
Definition load_annotations (annotator : string) (readable : bool)
    (fs : gmap string string) : result (list annotation) :=
  match fs !! get_annotation_path annotator with
  | None => Ok []
  | Some text => if readable then json_load text else Raise OSError
  end.

(** Lines 101-116 with their two loads; [samples] is what
    [load_samples()] evaluates to. *)
Definition start_session (annotator : string) (samples : result (list sample))
    (readable : bool) (fs : gmap string string) : result session :=
  let? smps := samples in
  let? existing_annotations := load_annotations annotator readable fs in
  Ok (init_session shuffle annotator smps existing_annotations).

End loading.

(** What the widgets of the annotator gate hand back in one execution. *)
Record gate_inputs : Type := {
  g_radio : string;        (* st.radio("Annotator type", ...) *)
  g_selectbox : string;    (* st.selectbox("Choose annotator", existing) *)
  g_text_input : string;   (* st.text_input("New annotator ID", ...) *)
  g_continue : bool        (* st.button("Continue") *)
}.

Inductive gate_outcome : Type :=
  | GateStopped (annotator_mode : string)  (* st.stop(); the mode is kept *)
  | GateEntered (annotator : string)       (* annotator_id is set; st.rerun() *)
  | GateRaised (e : exn).

(** Lines 59-92. *)
Definition annotator_gate (d : dir_status) (inp : gate_inputs) : gate_outcome :=
  match get_existing_annotators d with
  | Raise e => GateRaised e
  | Ok existing =>
      let annotator_mode := g_radio inp in
      let annotator :=
        if bool_decide (annotator_mode = "existing")
        then (if bool_decide (existing = []) then None
              else Some (g_selectbox inp))
        else Some (g_text_input inp) in
      if g_continue inp then
        match annotator with
        | Some a =>
            if bool_decide (a = "") then GateStopped annotator_mode
            else GateEntered a
        | None => GateStopped annotator_mode
        end
      else GateStopped annotator_mode
  end.

(** Lines 140-146: for each sample of the queue, whether its label gets
    the warning sign (no entry in the buffer), its number and its id. *)
Definition review_labels (st : session) : list (bool * nat * sid) :=
  imap (fun i smp =>
          (bool_decide (dict_get (s_id smp) (annotations_buffer st) = None),
           S i, s_id smp))
    (sample_order st).

(** Every entry of the dictionary is stored under its own [sample_id]. *)
Definition self_keyed (d : list (sid * annotation)) : Prop :=
  Forall (fun kv => a_sample_id kv.2 = kv.1) d.

(** The samples at the first [n] positions of the queue have an entry
    in the buffer. *)
Definition answered_upto (n : nat) (st : session) : Prop :=
  forall i smp, i < n -> sample_order st !! i = Some smp ->
    is_Some (dict_get (s_id smp) (annotations_buffer st)).

(** [old] does not occur in [s]. *)
Definition no_occurrence (old s : string) : Prop :=
  forall u v, s ≠ u +:+ old +:+ v.

Definition starts_with_sep (b : string) : bool :=
  match b with
  | String c _ => bool_decide (c = "/"%char)
  | "" => false
  end.

(** A decoder that gives back the entries of the bracketed stand-in
    text of the buffer of [reviewing3] and refuses any other text. *)
Definition bracket_load (text : string) : result (list annotation) :=
  if bool_decide
       (text = written (bracket_chunks
                          (dict_values (annotations_buffer reviewing3))))
  then Ok (dict_values (annotations_buffer reviewing3))
  else Raise ValueError.

(** How far the queue is answered for sure: all of it on the review
    page, the positions before the cursor on the annotation page. *)
Definition review_bound (st : session) : nat :=
  if review_mode st then length (sample_order st) else current_idx st.




(** The separator occurs in the string. *)
Fixpoint has_sep (s : string) : bool :=
  match s with
  | "" => false
  | String c s' => bool_decide (c = "/"%char) || has_sep s'
  end.

(** * Facts *)

(** ** Dictionaries *)

Section pydict_facts.
Context {V : Type}.
Implicit Types (d : list (sid * V)) (k : sid) (v : V).

Lemma dict_get_set_eq d k v : dict_get k (dict_set k v d) = Some v.
Proof.
  induction d as [|[k' v'] d IH]; simpl.
  - by rewrite decide_True.
  - destruct (decide (k = k')) as [->|Hne]; simpl.
    + by rewrite decide_True.
    + by rewrite decide_False.
Qed.

Lemma dict_get_set_ne d k k' v :
  k' ≠ k -> dict_get k' (dict_set k v d) = dict_get k' d.
Proof.
  intros Hne. induction d as [|[k0 v0] d IH]; simpl.
  - by rewrite decide_False.
  - destruct (decide (k = k0)) as [->|Hk]; simpl.
    + by rewrite !decide_False.
    + destruct (decide (k' = k0)); [done|apply IH].
Qed.

Lemma dict_get_is_Some d k : is_Some (dict_get k d) <-> k ∈ dict_keys d.
Proof.
  unfold dict_keys. induction d as [|[k' v'] d IHd]; simpl.
  - split; [intros [? ?]; done | intros ?%elem_of_nil; done].
  - destruct (decide (k = k')) as [->|Hne].
    + split; [intros _; apply elem_of_cons; by left | eauto].
    + rewrite IHd, elem_of_cons. tauto.
Qed.

Lemma dict_get_None d k : dict_get k d = None <-> k ∉ dict_keys d.
Proof.
  rewrite <- dict_get_is_Some, <- eq_None_not_Some. done.
Qed.

(** Assigning to a present key keeps the keys; to a new key appends it. *)
Lemma dict_keys_set d k v :
  dict_keys (dict_set k v d) =
    if decide (k ∈ dict_keys d) then dict_keys d else dict_keys d ++ [k].
Proof.
  unfold dict_keys. induction d as [|[k' v'] d IHd].
  - destruct (decide (k ∈ ([] : list (sid * V)).*1)) as [Hin|_]; [|done].
    by apply elem_of_nil in Hin.
  - cbn [dict_set]. destruct (decide (k = k')) as [->|Hne].
    + destruct (decide (k' ∈ ((k', v') :: d).*1)) as [_|Hnin]; [done|].
      exfalso. apply Hnin. apply elem_of_cons; by left.
    + rewrite !fmap_cons, IHd. cbn [fst].
      destruct (decide (k ∈ d.*1)) as [Hin|Hnin];
        destruct (decide (k ∈ k' :: d.*1)) as [Hin'|Hnin']; try done.
      * exfalso. apply Hnin'. apply elem_of_cons; by right.
      * apply elem_of_cons in Hin' as [?|?]; done.
Qed.

Lemma dict_len_set d k v :
  dict_len (dict_set k v d) =
    if decide (k ∈ dict_keys d) then dict_len d else S (dict_len d).
Proof.
  unfold dict_len.
  rewrite <- (length_fmap fst (dict_set k v d)).
  change (fst <$> dict_set k v d) with (dict_keys (dict_set k v d)).
  rewrite dict_keys_set. destruct (decide (k ∈ dict_keys d)).
  - unfold dict_keys. by rewrite length_fmap.
  - unfold dict_keys. rewrite length_app, length_fmap. simpl. lia.
Qed.

Lemma dict_len_set_le d k v : dict_len d <= dict_len (dict_set k v d).
Proof. rewrite dict_len_set. destruct (decide _); lia. Qed.

Lemma dict_len_keys d : dict_len d = length (dict_keys d).
Proof. unfold dict_len, dict_keys. by rewrite length_fmap. Qed.

Lemma dict_keys_set_elem d k k' v :
  k' ∈ dict_keys (dict_set k v d) <-> k' = k \/ k' ∈ dict_keys d.
Proof.
  rewrite dict_keys_set. destruct (decide (k ∈ dict_keys d)).
  - naive_solver.
  - rewrite elem_of_app, list_elem_of_singleton. naive_solver.
Qed.

Lemma dict_keys_set_NoDup d k v :
  NoDup (dict_keys d) -> NoDup (dict_keys (dict_set k v d)).
Proof.
  intros Hnd. rewrite dict_keys_set. destruct (decide (k ∈ dict_keys d)).
  - done.
  - apply NoDup_app. split_and!; [done| |apply NoDup_singleton].
    intros x Hx ->%list_elem_of_singleton. done.
Qed.
End pydict_facts.

Lemma dict_by_sample_id_fold (l : list annotation) (d : list (sid * annotation)) :
  let d' := fold_left (fun d a => dict_set (a_sample_id a) a d) l d in
  (NoDup (dict_keys d) -> NoDup (dict_keys d'))
  /\ (forall k, k ∈ dict_keys d' <-> k ∈ dict_keys d \/ k ∈ a_sample_id <$> l).
Proof.
  revert d. induction l as [|a l IH]; intros d; simpl.
  - split; [done|]. intros k. rewrite elem_of_nil. naive_solver.
  - destruct (IH (dict_set (a_sample_id a) a d)) as [IH1 IH2]. split.
    + intros Hnd. apply IH1. by apply dict_keys_set_NoDup.
    + intros k. rewrite IH2, dict_keys_set_elem, elem_of_cons. naive_solver.
Qed.

Lemma dict_by_sample_id_NoDup (l : list annotation) :
  NoDup (dict_keys (dict_by_sample_id l)).
Proof.
  apply (dict_by_sample_id_fold l []). apply NoDup_nil_2.
Qed.

Lemma dict_by_sample_id_keys (l : list annotation) (k : sid) :
  k ∈ dict_keys (dict_by_sample_id l) <-> k ∈ a_sample_id <$> l.
Proof.
  unfold dict_by_sample_id.
  rewrite (proj2 (dict_by_sample_id_fold l [])). simpl.
  rewrite elem_of_nil. naive_solver.
Qed.

(** ** The annotation page *)


Lemma current_sample_nonempty (st : session) (smp : sample) :
  current_sample st = Some smp -> sample_order st ≠ [].
Proof.
  unfold current_sample. intros Hs Hnil. rewrite Hnil in Hs. done.
Qed.


Lemma set_current_idx_same (st : session) :
  set_current_idx (current_idx st) st = st.
Proof. by destruct st. Qed.

Section script_facts.
Variable slider_accepts : Z -> Z -> pyval -> bool.
Variable json_chunks : list annotation -> list string.

Abbreviation render_form := (render_form slider_accepts).
Abbreviation annotation_page := (annotation_page slider_accepts).
Abbreviation run := (run slider_accepts json_chunks).
Abbreviation interact := (interact slider_accepts json_chunks).

(** What the page does once the form has been rendered. *)
Lemma annotation_page_rendered (ev : event) (inp : inputs) (st : session)
    (smp : sample) (f : form) :
  current_sample st = Some smp ->
  render_form (anomaly_of smp) (dict_get (s_id smp) (annotations_buffer st))
    inp = Ok f ->
  let idx := current_idx st `min` (length (sample_order st) - 1) in
  let st0 := set_current_idx idx st in
  annotation_page ev inp st =
    match ev with
    | ClickBack =>
        if decide (0 < idx) then Rerun (set_current_idx (idx - 1) st0)
        else Stopped st0
    | ClickSave =>
        let st1 :=
          set_annotations_buffer
            (dict_set (s_id smp)
               (saved_record smp (annotator_id st) f (in_utcnow inp))
               (annotations_buffer st)) st0 in
        if decide (idx < length (sample_order st) - 1)
        then Rerun (set_current_idx (idx + 1) st1)
        else Rerun (set_review_mode true st1)
    | _ => Stopped st0
    end.
Proof.
  intros Hs Hf idx st0. unfold annotation_page.
  rewrite decide_False by (by eapply current_sample_nonempty).
  unfold current_sample in Hs. fold idx in Hs. fold idx. rewrite Hs.
  cbn [annotations_buffer set_current_idx].
  unfold anomaly_of in Hf. rewrite Hf. done.
Qed.

(** An exception while rendering leaves the page before any handler. *)
Lemma annotation_page_raised (ev : event) (inp : inputs) (st : session)
    (smp : sample) (e : exn) :
  current_sample st = Some smp ->
  render_form (anomaly_of smp) (dict_get (s_id smp) (annotations_buffer st))
    inp = Raise e ->
  annotation_page ev inp st =
    Raised e (set_current_idx
                (current_idx st `min` (length (sample_order st) - 1)) st).
Proof.
  intros Hs Hf. unfold annotation_page.
  rewrite decide_False by (by eapply current_sample_nonempty).
  unfold current_sample in Hs. rewrite Hs.
  cbn [annotations_buffer set_current_idx].
  unfold anomaly_of in Hf. rewrite Hf. done.
Qed.

Lemma run_annotating (ev : event) (inp : inputs) (st : session)
    (fs : gmap string string) :
  review_mode st = false -> ev ≠ ClickReviewAll ->
  run ev inp st fs = (fs, annotation_page ev inp st).
Proof.
  intros Hm Hev. unfold run. rewrite Hm.
  rewrite (bool_decide_eq_false_2 _ Hev), andb_false_r. done.
Qed.


(** *** The form *)

Lemma list_index_lt (opts : list string) (v : pyval) (i : nat) :
  list_index opts v = Ok i -> i < length opts.
Proof.
  revert i. induction opts as [|o opts IHo]; intros i; simpl; [done|].
  destruct (decide (v = PStr o)); [intros [= <-]; lia|].
  destruct (list_index opts v) as [j|e]; simpl; [|done].
  intros [= <-]. specialize (IHo j eq_refl). lia.
Qed.

(** [list.index] finds exactly the strings of the list. *)
Lemma list_index_Ok (opts : list string) (v : pyval) :
  (exists i, list_index opts v = Ok i) <-> one_of opts v = true.
Proof.
  induction opts as [|o opts IHo]; simpl.
  - split; [intros [i ?]; done|]. by destruct v.
  - destruct (decide (v = PStr o)) as [->|Hne].
    + split; [|by eauto]. intros _. simpl. apply bool_decide_eq_true.
      apply elem_of_cons; by left.
    + destruct (list_index opts v) as [j|e]; simpl.
      * split; [intros _|by eauto].
        destruct IHo as [IH1 _]. specialize (IH1 (ex_intro _ j eq_refl)).
        destruct v; simpl in *; try done.
        apply bool_decide_eq_true. apply bool_decide_eq_true in IH1.
        apply elem_of_cons; by right.
      * split; [intros [i ?]; done|]. intros Hin.
        destruct IHo as [_ IH2]. destruct v; simpl in *; try done.
        apply bool_decide_eq_true in Hin.
        apply elem_of_cons in Hin as [->|Hin]; [done|].
        destruct IH2 as [i ?]; [by apply bool_decide_eq_true|done].
Qed.

Lemma list_index_Raise (opts : list string) (v : pyval) :
  one_of opts v = false -> list_index opts v = Raise ValueError.
Proof.
  intros Hv. destruct (list_index opts v) as [i|e] eqn:Hi.
  - assert (one_of opts v = true) by (apply list_index_Ok; eauto). congruence.
  - f_equal. revert e Hi. clear Hv.
    induction opts as [|o opts IHo]; intros e; simpl; [by intros [= <-]|].
    destruct (decide (v = PStr o)); [done|].
    destruct (list_index opts v) as [j|e']; simpl; [done|].
    intros [= <-]. by apply IHo.
Qed.

(** What a rendered form holds: the values the widgets returned, with
    the two conditional fields replaced by "N/A" when there is no
    anomaly. *)
Lemma render_form_fields (anomaly : bool) (existing : option annotation)
    (inp : inputs) (f : form) :
  render_form anomaly existing inp = Ok f ->
  f = {| f_anomaly_presence := in_anomaly_presence inp;
         f_type_correctness :=
           if anomaly then in_type_correctness inp else PStr "N/A";
         f_localization_score :=
           if anomaly then in_localization_score inp else PStr "N/A";
         f_grounded_reasoning := in_grounded_reasoning inp |}.
Proof.
  unfold render_form, st_slider, st_radio, rbind. intros Hf.
  repeat (case_match; simplify_eq/=; try done).
Qed.

(** When the form is rendered, and only then. *)
Lemma render_form_Ok (anomaly : bool) (existing : option annotation)
    (inp : inputs) :
  (exists f, render_form anomaly existing inp = Ok f) <->
  in_media_loads inp = true
  /\ one_of presence_options
       (get_or existing a_anomaly_presence (PStr "yes")) = true
  /\ (anomaly = true ->
        one_of type_options
          (get_or existing a_type_correctness (PStr "correct")) = true
        /\ slider_accepts 1 5
             (get_or existing a_localization_score (PInt 3)) = true)
  /\ slider_accepts 1 5 (get_or existing a_grounded_reasoning (PInt 3)) = true.
Proof.
  rewrite <- !list_index_Ok.
  unfold render_form, st_slider, st_radio.
  set (ap := get_or existing a_anomaly_presence (PStr "yes")).
  set (tc := get_or existing a_type_correctness (PStr "correct")).
  set (loc := get_or existing a_localization_score (PInt 3)).
  set (gr := get_or existing a_grounded_reasoning (PInt 3)).
  destruct (in_media_loads inp); cbn [rbind negb];
    [|split; [by intros [? ?]|by intros [? _]]].
  destruct (list_index presence_options ap) as [i|] eqn:Hi; cbn [rbind negb];
    [|split; [by intros [? ?]|by intros (_ & [? ?] & _)]].
  rewrite decide_True by (by eapply list_index_lt). cbn [rbind negb].
  destruct anomaly.
  - destruct (list_index type_options tc) as [j|] eqn:Hj; cbn [rbind negb].
    2:{ split; [by intros [? ?]|]. intros (_ & _ & H & _).
        destruct (H eq_refl) as [[? ?] _]. done. }
    rewrite decide_True by (by eapply list_index_lt). cbn [rbind negb].
    destruct (slider_accepts 1 5 loc); cbn [rbind negb].
    2:{ split; [by intros [? ?]|]. intros (_ & _ & H & _).
        destruct (H eq_refl) as [_ ?]. done. }
    destruct (slider_accepts 1 5 gr); cbn [rbind negb];
      [|split; [by intros [? ?]|by intros (_ & _ & _ & ?)]].
    split; [|by eauto]. intros _. split_and!; eauto.
  - destruct (slider_accepts 1 5 gr); cbn [rbind negb];
      [|split; [by intros [? ?]|by intros (_ & _ & _ & ?)]].
    split; [|by eauto]. intros _. split_and!; eauto. done.
Qed.

(** C2.  For a sample whose [anomaly_label] is falsy (or absent), a
    save stores a record whose [type_correctness] and
    [localization_score] are both "N/A": whatever the two widgets'
    values in the inputs are and whatever the buffer held for the sample
    in these two fields.  The save goes through as soon as the media
    load and the stored [anomaly_presence] and [grounded_reasoning]
    hydrate; the two conditional fields are not read. *)
Theorem no_anomaly_saves_na (st : session) (inp : inputs)
    (fs : gmap string string) (smp : sample) :
  review_mode st = false ->
  current_sample st = Some smp ->
  anomaly_of smp = false ->
  in_media_loads inp = true ->
  one_of presence_options
    (get_or (dict_get (s_id smp) (annotations_buffer st))
       a_anomaly_presence (PStr "yes")) = true ->
  slider_accepts 1 5
    (get_or (dict_get (s_id smp) (annotations_buffer st))
       a_grounded_reasoning (PInt 3)) = true ->
  exists st' r,
    run ClickSave inp st fs = (fs, Rerun st')
    /\ dict_get (s_id smp) (annotations_buffer st') = Some r
    /\ a_type_correctness r = Some (PStr "N/A")
    /\ a_localization_score r = Some (PStr "N/A")
    /\ a_anomaly_presence r = Some (in_anomaly_presence inp)
    /\ a_grounded_reasoning r = Some (in_grounded_reasoning inp).
Proof.
  intros Hm Hs Han Hmedia Hap Hgr.
  destruct (proj2 (render_form_Ok false
                     (dict_get (s_id smp) (annotations_buffer st)) inp))
    as [f Hf]; [by split_and!|].
  rewrite <- Han in Hf.
  pose proof (render_form_fields _ _ _ _ Hf) as Hfields.
  rewrite Han in Hfields.
  rewrite run_annotating by done.
  rewrite (annotation_page_rendered ClickSave inp st smp f Hs Hf).
  cbv zeta. subst f.
  destruct (decide (_ < _)); eexists _, _; (split; [reflexivity|]); cbn;
    rewrite dict_get_set_eq; done.
Qed.

(** The save handler has no check of its own: once the page is
    rendered, the four values the widgets hand back are stored as they
    are under the id of the current sample (the two conditional fields
    as "N/A" when there is no anomaly), and the session moves on. *)
Lemma save_stores_any_payload (st : session) (inp : inputs)
    (fs : gmap string string) (smp : sample) (ap tc loc gr : pyval) :
  review_mode st = false ->
  current_sample st = Some smp ->
  (exists f, render_form (anomaly_of smp)
               (dict_get (s_id smp) (annotations_buffer st)) inp = Ok f) ->
  exists st' r,
    run ClickSave (with_answer ap tc loc gr inp) st fs = (fs, Rerun st')
    /\ dict_get (s_id smp) (annotations_buffer st') = Some r
    /\ a_anomaly_presence r = Some ap
    /\ a_grounded_reasoning r = Some gr
    /\ a_type_correctness r
       = Some (if anomaly_of smp then tc else PStr "N/A")
    /\ a_localization_score r
       = Some (if anomaly_of smp then loc else PStr "N/A")
    /\ (if decide (current_idx st < length (sample_order st) - 1)
        then current_idx st' = current_idx st + 1
        else review_mode st' = true).
Proof.
  intros Hm Hs Hren.
  apply render_form_Ok in Hren.
  destruct (proj2 (render_form_Ok (anomaly_of smp)
                     (dict_get (s_id smp) (annotations_buffer st))
                     (with_answer ap tc loc gr inp)))
    as [f Hf]; [done|].
  pose proof (render_form_fields _ _ _ _ Hf) as Hfields.
  rewrite run_annotating by done.
  rewrite (annotation_page_rendered ClickSave _ st smp f Hs Hf).
  cbv zeta. subst f.
  destruct (decide (_ `min` _ < _)) as [Hlt|Hge]; eexists _, _;
    (split; [reflexivity|]); cbn; rewrite dict_get_set_eq;
    split_and!; try done.
  - rewrite decide_True by lia. lia.
  - rewrite decide_False by lia. done.
Qed.




(** *** Back *)


(** *** Hydration *)

Section slider_contract.
(** What is assumed of [st.slider(label, 1, 5, value=v)]: an integer of
    the range is taken as the initial value, a string is refused. *)
Hypothesis slider_takes_range :
  forall z : Z, (1 <= z <= 5)%Z -> slider_accepts 1 5 (PInt z) = true.
Hypothesis slider_refuses_str :
  forall s : string, slider_accepts 1 5 (PStr s) = false.

Lemma slider_accepts_in_1_to_5 (v : pyval) :
  in_1_to_5 v = true -> slider_accepts 1 5 v = true.
Proof.
  destruct v as [| |z|]; simpl; try done.
  intros [?%Z.leb_le ?%Z.leb_le]%andb_true_iff.
  apply slider_takes_range. lia.
Qed.

(** C10.  For a sample with a truthy [anomaly_label] that has an entry
    in the buffer, the form is rendered when the stored values lie in
    the domains of the widgets ([type_correctness] among
    correct/partial/incorrect, [localization_score] an integer in 1..5,
    and likewise the two unconditional fields); it is rendered only if
    the stored [type_correctness] is one of the three options and the
    stored [localization_score] is a value the slider takes, hence no
    string, and an integer in 1..5 for a slider that takes nothing
    else; and if the entry holds "N/A" in either field the run ends in
    an exception, with the session as it was up to the clamped cursor:
    no form with the default values is produced. *)
Theorem hydration_needs_valid_prior (st : session) (inp : inputs)
    (smp : sample) (a : annotation) :
  current_sample st = Some smp ->
  anomaly_of smp = true ->
  dict_get (s_id smp) (annotations_buffer st) = Some a ->
  let hydrate := render_form true (Some a) inp in
  (in_media_loads inp = true ->
   one_of presence_options (default (PStr "yes") (a_anomaly_presence a)) = true ->
   in_1_to_5 (default (PInt 3) (a_grounded_reasoning a)) = true ->
   one_of type_options (default (PStr "correct") (a_type_correctness a)) = true ->
   in_1_to_5 (default (PInt 3) (a_localization_score a)) = true ->
   exists f, hydrate = Ok f)
  /\ ((exists f, hydrate = Ok f) ->
      one_of type_options (default (PStr "correct") (a_type_correctness a)) = true
      /\ slider_accepts 1 5 (default (PInt 3) (a_localization_score a)) = true
      /\ (forall s, a_localization_score a ≠ Some (PStr s))
      /\ ((forall v, slider_accepts 1 5 v = true -> in_1_to_5 v = true) ->
          in_1_to_5 (default (PInt 3) (a_localization_score a)) = true))
  /\ (a_type_correctness a = Some (PStr "N/A")
      \/ a_localization_score a = Some (PStr "N/A") ->
      exists e, hydrate = Raise e /\
      forall ev fs, review_mode st = false -> ev ≠ ClickReviewAll ->
        run ev inp st fs
        = (fs, Raised e
                 (set_current_idx
                    (current_idx st `min` (length (sample_order st) - 1)) st))).
Proof.
  intros Hs Han Ha hydrate. unfold hydrate.
  assert (Hnec : (exists f, render_form true (Some a) inp = Ok f) ->
      one_of type_options (default (PStr "correct") (a_type_correctness a)) = true
      /\ slider_accepts 1 5 (default (PInt 3) (a_localization_score a)) = true
      /\ (forall s, a_localization_score a ≠ Some (PStr s))
      /\ ((forall v, slider_accepts 1 5 v = true -> in_1_to_5 v = true) ->
          in_1_to_5 (default (PInt 3) (a_localization_score a)) = true)).
  { intros (_ & _ & Hcond & _)%render_form_Ok.
    destruct (Hcond eq_refl) as [Htc Hloc]. cbn [get_or] in Htc, Hloc.
    split_and!; [done|done| |by auto].
    intros s Hsome. rewrite Hsome in Hloc. cbn in Hloc.
    by rewrite slider_refuses_str in Hloc. }
  split_and!.
  - intros Hmedia Hap Hgr Htc Hloc. apply render_form_Ok. cbn [get_or].
    split_and!; auto using slider_accepts_in_1_to_5.
  - exact Hnec.
  - intros Hna.
    destruct (render_form true (Some a) inp) as [f|e] eqn:Hf.
    + exfalso. destruct Hnec as (Htc & _ & Hloc & _); [eauto|].
      destruct Hna as [Hna|Hna].
      * rewrite Hna in Htc. vm_compute in Htc. done.
      * by eapply Hloc.
    + exists e. split; [done|]. intros ev fs Hm Hev.
      rewrite run_annotating by done.
      rewrite (annotation_page_raised ev inp st smp e Hs); [done|].
      by rewrite Han, Ha.
Qed.

End slider_contract.

(** *** What an execution can change *)

(** An execution keeps the annotator, the queue and the total; the
    buffer is either kept or gets one assignment under the id of a
    sample of the queue; a cursor inside the queue stays inside. *)
Lemma run_frame (ev : event) (inp : inputs) (st st' : session)
    (fs : gmap string string) :
  session_after (run ev inp st fs).2 = Some st' ->
  annotator_id st' = annotator_id st
  /\ sample_order st' = sample_order st
  /\ total_samples st' = total_samples st
  /\ (annotations_buffer st' = annotations_buffer st
      \/ exists smp r,
           ev = ClickSave /\ smp ∈ sample_order st
           /\ annotations_buffer st'
              = dict_set (s_id smp) r (annotations_buffer st))
  /\ (current_idx st <= length (sample_order st) - 1 ->
      current_idx st' <= length (sample_order st) - 1).
Proof.
  unfold run.
  destruct (review_all_offered st && bool_decide (ev = ClickReviewAll)).
  { cbn. intros [= <-]. cbn. auto 10. }
  destruct (review_mode st).
  - unfold review_page. destruct ev; cbn; try (intros [= <-]; by auto 10).
    + destruct (decide (i < length (sample_order st))); cbn;
        intros [= <-]; cbn; split_and!; auto. intros _. lia.
    + destruct (save_all_annotations _ _ _ _ _) as [fs' [[]|e]]; cbn;
        [done|]. intros [= <-]. auto 10.
  - cbn [snd]. unfold annotation_page.
    destruct (decide (sample_order st = [])); [cbn; intros [= <-]; by auto 10|].
    set (idx := current_idx st `min` (length (sample_order st) - 1)).
    assert (Hidx : idx <= length (sample_order st) - 1) by lia.
    destruct (sample_order st !! idx) as [smp|] eqn:Hs;
      [|cbn; intros [= <-]; cbn; by auto 10].
    cbn [annotations_buffer set_current_idx].
    destruct (render_form _ _ inp) as [f|e];
      [|cbn; intros [= <-]; cbn; by auto 10].
    destruct ev; try (cbn; intros [= <-]; cbn; by auto 10).
    + destruct (decide (0 < idx)); cbn; intros [= <-]; cbn;
        split_and!; auto. intros _. lia.
    + apply list_elem_of_lookup_2 in Hs.
      destruct (decide (idx < length (sample_order st) - 1)); cbn;
        intros [= <-]; cbn; split_and!; eauto 10. intros _. lia.
Qed.

Lemma run_frame_no_save (ev : event) (inp : inputs) (st st' : session)
    (fs : gmap string string) :
  ev ≠ ClickSave ->
  session_after (run ev inp st fs).2 = Some st' ->
  annotations_buffer st' = annotations_buffer st.
Proof.
  intros Hev Hrun. apply run_frame in Hrun as (_ & _ & _ & [?|?] & _); [done|].
  by destruct H as (? & ? & ? & _).
Qed.

(** The same for a whole interaction. *)
Lemma step_frame (st st' : session) :
  step slider_accepts json_chunks st st' ->
  annotator_id st' = annotator_id st
  /\ sample_order st' = sample_order st
  /\ total_samples st' = total_samples st
  /\ (annotations_buffer st' = annotations_buffer st
      \/ exists smp r,
           smp ∈ sample_order st
           /\ annotations_buffer st'
              = dict_set (s_id smp) r (annotations_buffer st))
  /\ (current_idx st <= length (sample_order st) - 1 ->
      current_idx st' <= length (sample_order st) - 1).
Proof.
  intros (ev & inp & fs & Hstep). unfold interact in Hstep.
  destruct (run ev inp st fs) as [fs1 o] eqn:Hrun.
  assert (Hfirst : forall st1, session_after o = Some st1 ->
            session_after (run ev inp st fs).2 = Some st1)
    by (intros st1 ?; by rewrite Hrun).
  destruct o as [st1|st1|e st1|]; cbn in Hstep.
  - injection Hstep as <-. destruct (run_frame _ _ _ _ _ (Hfirst _ eq_refl))
      as (? & ? & ? & Hb & ?). split_and!; try done.
    destruct Hb as [?|(smp & r & _ & ? & ?)]; eauto.
  - destruct (run_frame _ _ _ _ _ (Hfirst _ eq_refl))
      as (Ha & Hq & Ht & Hb & Hc).
    pose proof (run_frame_no_save NoClick inp st1 st' fs1 ltac:(done) Hstep)
      as Hb'.
    destruct (run_frame _ _ _ _ _ Hstep) as (Ha' & Hq' & Ht' & _ & Hc').
    rewrite Hq in Hc'. rewrite Ha', Hq', Ht', Hb'. split_and!; auto.
    destruct Hb as [?|(smp & r & _ & ? & ?)]; eauto.
  - injection Hstep as <-. destruct (run_frame _ _ _ _ _ (Hfirst _ eq_refl))
      as (? & ? & ? & Hb & ?). split_and!; try done.
    destruct Hb as [?|(smp & r & _ & ? & ?)]; eauto.
  - done.
Qed.

Lemma step_done_le (st st' : session) :
  step slider_accepts json_chunks st st' -> done st <= done st'.
Proof.
  intros (_ & _ & _ & [Hb|(smp & r & _ & Hb)] & _)%step_frame;
    unfold done; rewrite Hb; [done|apply dict_len_set_le].
Qed.

Lemma steps_done_le (st st' : session) :
  rtc (step slider_accepts json_chunks) st st' -> done st <= done st'.
Proof.
  induction 1 as [|st st1 st' Hstep _ IH]; [done|].
  apply step_done_le in Hstep. lia.
Qed.

Lemma step_within (ids : list sid) (st st' : session) :
  step slider_accepts json_chunks st st' -> within ids st -> within ids st'.
Proof.
  intros (_ & Hq & _ & Hb & _)%step_frame (Hnd & Hkeys & Hqueue).
  unfold within. rewrite Hq.
  destruct Hb as [->|(smp & r & Hin & ->)]; [done|].
  split_and!; [by apply dict_keys_set_NoDup| |done].
  intros k [->|?]%dict_keys_set_elem; auto.
Qed.

Lemma steps_within (ids : list sid) (st st' : session) :
  rtc (step slider_accepts json_chunks) st st' ->
  within ids st -> within ids st'.
Proof. induction 1; eauto using step_within. Qed.

Lemma within_done_le (ids : list sid) (st : session) :
  within ids st -> done st <= length ids.
Proof.
  intros (Hnd & Hkeys & _). unfold done. rewrite dict_len_keys.
  apply submseteq_length, NoDup_submseteq; done.
Qed.

Lemma steps_total (st st' : session) :
  rtc (step slider_accepts json_chunks) st st' ->
  total_samples st' = total_samples st /\ sample_order st' = sample_order st.
Proof.
  induction 1 as [|st st1 st' Hstep _ [IH1 IH2]]; [done|].
  apply step_frame in Hstep as (_ & Hq & Ht & _). by rewrite IH1, IH2.
Qed.

End script_facts.


(** ** Session initialisation *)

Lemma queue_fully_answered_spec (st : session) :
  queue_fully_answered st = true <->
  forall smp, smp ∈ sample_order st ->
    s_id smp ∈ dict_keys (annotations_buffer st).
Proof.
  unfold queue_fully_answered.
  induction (sample_order st) as [|s l IHl]; simpl.
  - split; [|done]. intros _ smp ?%elem_of_nil. done.
  - rewrite andb_true_iff, IHl, bool_decide_eq_true, dict_get_is_Some.
    split.
    + intros [Hs Hl] smp [->|?]%elem_of_cons; auto.
    + intros Hall. split; [|intros smp ?]; apply Hall, elem_of_cons; auto.
Qed.

(** The samples of a catalog with distinct ids whose id is among a list
    of distinct catalog ids are as many as that list. *)
Lemma length_filter_ids (C : list sample) (ids : list sid) :
  NoDup (s_id <$> C) -> NoDup ids ->
  (forall k, k ∈ ids -> k ∈ s_id <$> C) ->
  length (filter (fun s => ¬ (s_id s ∉ ids)) C) = length ids.
Proof.
  intros HC Hids Hsub.
  rewrite <- (length_fmap s_id (filter _ C)).
  apply Permutation_length, NoDup_Permutation; [|done|].
  - eapply sublist_NoDup; [exact HC|].
    apply fmap_sublist, sublist_filter.
  - intros k. rewrite list_elem_of_fmap. split.
    + intros (s & -> & Hf). apply list_elem_of_filter in Hf as [Hin _].
      by destruct (decide (s_id s ∈ ids)).
    + intros Hk. pose proof (Hsub k Hk) as Hc.
      apply list_elem_of_fmap in Hc as (s & -> & Hs).
      exists s. split; [done|]. apply list_elem_of_filter. split; [|done].
      by intros Hn.
Qed.

Section init_facts.
Variable shuffle : list sample -> list sample.
Variable slider_accepts : Z -> Z -> pyval -> bool.
Variable json_chunks : list annotation -> list string.

(** [random.shuffle] rearranges the list it is given. *)
Hypothesis shuffle_perm : forall l, shuffle l ≡ₚ l.

Abbreviation init_session := (init_session shuffle).
Abbreviation run := (run slider_accepts json_chunks).
Abbreviation step := (step slider_accepts json_chunks).

(** C3, as the code has it.  The queue is a rearrangement of the
    catalog samples whose id is not the [sample_id] of a prior
    annotation, and [total_samples] is the size of the catalog;
    |queue| + |A| = |C| holds when the ids of the catalog are distinct,
    those of the prior annotations are distinct, and every prior
    annotation carries the id of a catalog sample. *)
Theorem queue_is_unannotated_catalog (annotator : string)
    (C : list sample) (A : list annotation) :
  let st := init_session annotator C A in
  sample_order st ≡ₚ filter (fun s => s_id s ∉ a_sample_id <$> A) C
  /\ total_samples st = length C
  /\ (NoDup (s_id <$> C) -> NoDup (a_sample_id <$> A) ->
      (forall a, a ∈ A -> a_sample_id a ∈ s_id <$> C) ->
      length (sample_order st) + length A = length C).
Proof.
  cbn. split_and!; [apply shuffle_perm|done|].
  intros HC HA Hsub. rewrite (Permutation_length (shuffle_perm _)).
  rewrite <- (Permutation_length
                (filter_app_complement (fun s => s_id s ∉ a_sample_id <$> A) C)).
  rewrite length_app, length_filter_ids, length_fmap; [done..|].
  intros k (a & -> & Ha)%list_elem_of_fmap. by apply Hsub.
Qed.

(** C6, as the code has it.  The session is initialised in annotating
    mode whatever the queue is.  When every prior annotation carries
    the id of a catalog sample, the progress of line 126 is at most the
    total, so the progress bar is drawn and the page is reached; then,
    with an empty queue and prior annotations, every execution stops at
    the empty-queue guard of the annotation page and leaves the session
    as it is: review mode is not entered.  (With an empty queue and no
    prior annotation the same holds for every click but the one on the
    review-all button.) *)
Theorem init_mode_is_annotating (annotator : string)
    (C : list sample) (A : list annotation) :
  let st := init_session annotator C A in
  review_mode st = false
  /\ ((forall a, a ∈ A -> a_sample_id a ∈ s_id <$> C) ->
      done st <= total st
      /\ (sample_order st = [] ->
          forall ev inp fs, A ≠ [] \/ ev ≠ ClickReviewAll ->
            run ev inp st fs = (fs, Stopped st))).
Proof.
  intros st. split; [done|]. intros Hsub. split.
  { change (done st) with (dict_len (dict_by_sample_id A)).
    change (total st) with (length C). rewrite dict_len_keys.
    rewrite <- (length_fmap s_id C).
    apply submseteq_length, NoDup_submseteq; [apply dict_by_sample_id_NoDup|].
    intros k Hk. apply dict_by_sample_id_keys in Hk.
    apply list_elem_of_fmap in Hk as (a & -> & Ha). auto. }
  intros Hq ev inp fs Hcase.
  assert (Hoff : review_all_offered st && bool_decide (ev = ClickReviewAll)
                 = false).
  { destruct Hcase as [HA|Hev].
    - destruct A as [|a A']; [done|].
      assert (Hin : a_sample_id a ∈ dict_keys (annotations_buffer st))
        by (apply dict_by_sample_id_keys, elem_of_cons; by left).
      unfold review_all_offered. rewrite Hq, dict_len_keys.
      destruct (dict_keys (annotations_buffer st)); [|done].
      by apply elem_of_nil in Hin.
    - by rewrite (bool_decide_eq_false_2 _ Hev), andb_false_r. }
  unfold run. rewrite Hoff.
  change (review_mode st) with false. cbv iota.
  unfold annotation_page. by rewrite decide_True.
Qed.

Lemma init_within (annotator : string) (C : list sample) (A : list annotation) :
  (forall a, a ∈ A -> a_sample_id a ∈ s_id <$> C) ->
  within (s_id <$> C) (init_session annotator C A).
Proof.
  intros Hsub. unfold within. cbn. split_and!.
  - apply dict_by_sample_id_NoDup.
  - intros k (a & -> & Ha)%dict_by_sample_id_keys%list_elem_of_fmap. auto.
  - intros smp Hin. rewrite shuffle_perm in Hin.
    apply list_elem_of_filter in Hin as [_ Hin].
    by apply list_elem_of_fmap_2.
Qed.

(** At initialisation no sample of the queue has an entry in the
    buffer: the samples with a prior annotation are not in the queue. *)
Lemma init_queue_unanswered (annotator : string) (C : list sample)
    (A : list annotation) (smp : sample) :
  smp ∈ sample_order (init_session annotator C A) ->
  dict_get (s_id smp) (annotations_buffer (init_session annotator C A)) = None.
Proof.
  cbn. rewrite shuffle_perm. intros [Hnin _]%list_elem_of_filter.
  apply dict_get_None. by rewrite dict_by_sample_id_keys.
Qed.

(** In every state of a session the cursor is a position of the queue
    (or 0 when the queue is empty). *)
Lemma reachable_cursor_in_range (annotator : string) (C : list sample)
    (A : list annotation) (st : session) :
  rtc step (init_session annotator C A) st ->
  current_idx st <= length (sample_order st) - 1.
Proof.
  intros Hsteps.
  assert (H0 : current_idx (init_session annotator C A)
               <= length (sample_order (init_session annotator C A)) - 1)
    by (cbn; lia).
  revert H0. induction Hsteps as [|st0 st1 st2 Hstep _ IH]; [done|].
  intros H0. apply IH.
  apply step_frame in Hstep as (_ & Hq & _ & _ & Hc). rewrite Hq. auto.
Qed.

(** C8, as the code has it.  Along the interactions of a session the
    number of entries of the buffer never goes down; and in every state
    reached from the initialisation it is at most [total_samples],
    provided every prior annotation carries the id of a catalog
    sample. *)
Theorem progress_monotone_and_bounded (annotator : string)
    (C : list sample) (A : list annotation) :
  (forall st st', rtc step st st' -> done st <= done st')
  /\ ((forall a, a ∈ A -> a_sample_id a ∈ s_id <$> C) ->
      forall st, rtc step (init_session annotator C A) st ->
        done st <= total st).
Proof.
  split; [apply steps_done_le|].
  intros Hsub st Hsteps.
  pose proof (steps_within _ _ _ _ _ Hsteps (init_within annotator C A Hsub))
    as Hw.
  apply within_done_le in Hw. rewrite length_fmap in Hw.
  apply steps_total in Hsteps as [Ht _]. unfold total. rewrite Ht. done.
Qed.

(** In a session started with no prior annotation over a catalog with
    distinct ids, the review-all button is offered exactly when the
    queue is fully answered (and the page is not the review page). *)
Lemma fresh_session_review_guard (annotator : string) (C : list sample)
    (st : session) :
  NoDup (s_id <$> C) ->
  rtc step (init_session annotator C []) st ->
  review_all_offered st = queue_fully_answered st && negb (review_mode st).
Proof.
  intros HC Hsteps.
  set (st0 := init_session annotator C []) in *.
  assert (Hq0 : sample_order st0 ≡ₚ C).
  { cbn. rewrite shuffle_perm. clear. induction C as [|s l IHl]; [done|].
    rewrite filter_cons_True by apply not_elem_of_nil. by f_equiv. }
  assert (Hw0 : within (s_id <$> sample_order st0) st0).
  { unfold within. split_and!; [apply NoDup_nil_2| |].
    - intros k ?%elem_of_nil. done.
    - intros smp ?. by apply list_elem_of_fmap_2. }
  pose proof (steps_within _ _ _ _ _ Hsteps Hw0) as (Hnd & Hkeys & _).
  apply steps_total in Hsteps as [_ Hq]. rewrite <- Hq in Hkeys.
  assert (Hndq : NoDup (s_id <$> sample_order st))
    by (by rewrite Hq, Hq0).
  unfold review_all_offered. f_equal.
  rewrite dict_len_keys, <- (length_fmap s_id (sample_order st)).
  apply eq_true_iff_eq. rewrite Nat.eqb_eq, queue_fully_answered_spec.
  split.
  - intros Hlen smp Hin.
    assert (Hp : dict_keys (annotations_buffer st) ≡ₚ s_id <$> sample_order st).
    { apply submseteq_length_Permutation; [by apply NoDup_submseteq|lia]. }
    rewrite Hp. by apply list_elem_of_fmap_2.
  - intros Hall. apply Nat.le_antisymm.
    + apply submseteq_length, NoDup_submseteq; done.
    + apply submseteq_length, NoDup_submseteq; [done|].
      intros k (smp & -> & Hin)%list_elem_of_fmap. auto.
Qed.

End init_facts.

(** ** The store and the final submit *)

Lemma append_nil_l (s : string) : "" +:+ s = s.
Proof. reflexivity. Qed.

Lemma append_nil_r (s : string) : s +:+ "" = s.
Proof.
  induction s as [|c s IHs]; [done|].
  change (String c (s +:+ "") = String c s). by rewrite IHs.
Qed.

Lemma append_assoc (s1 s2 s3 : string) :
  (s1 +:+ s2) +:+ s3 = s1 +:+ (s2 +:+ s3).
Proof.
  induction s1 as [|c s1 IHs]; [done|].
  change (String c ((s1 +:+ s2) +:+ s3) = String c (s1 +:+ (s2 +:+ s3))).
  by rewrite IHs.
Qed.

(** The file after the writes: the chunks up to the failing one, or all
    of them, appended to what the file held. *)
Lemma write_chunks_spec (path : string) (chunks : list string) (n : nat)
    (flt : fault) (fs : gmap string string) (c0 : string) :
  fs !! path = Some c0 ->
  write_chunks path chunks n flt fs =
    match flt with
    | FailWrite k =>
        if decide (n <= k < n + length chunks)
        then (<[path := c0 +:+ written (take (k - n) chunks)]> fs, Raise OSError)
        else (<[path := c0 +:+ written chunks]> fs, Ok tt)
    | _ => (<[path := c0 +:+ written chunks]> fs, Ok tt)
    end.
Proof.
  revert n fs c0. induction chunks as [|c rest IH]; intros n fs c0 Hc0.
  - cbn [write_chunks written foldr length take].
    rewrite append_nil_r, (insert_id _ _ _ Hc0).
    destruct flt; try done. by rewrite decide_False by lia.
  - cbn [write_chunks]. destruct (decide (flt = FailWrite n)) as [->|Hne].
    + rewrite decide_True by (cbn; lia). rewrite Nat.sub_diag.
      cbn [take written foldr]. by rewrite append_nil_r, (insert_id _ _ _ Hc0).
    + replace (default "" (fs !! path)) with c0 by (by rewrite Hc0).
      rewrite (IH (S n) _ (c0 +:+ c)) by apply lookup_insert_eq.
      cbn [written foldr length]. fold (written rest).
      destruct flt as [| | |k];
        try (by rewrite insert_insert_eq, append_assoc).
      assert (k ≠ n) by congruence.
      destruct (decide (S n <= k < S n + length rest)).
      * rewrite decide_True by lia.
        replace (k - n) with (S (k - S n)) by lia.
        cbn [take written foldr]. fold (written (take (k - S n) rest)).
        by rewrite insert_insert_eq, append_assoc.
      * rewrite decide_False by lia.
        by rewrite insert_insert_eq, append_assoc.
Qed.

Section store_facts.
Variable slider_accepts : Z -> Z -> pyval -> bool.
Variable json_chunks : list annotation -> list string.

Abbreviation run := (run slider_accepts json_chunks).
Abbreviation save_all_annotations := (save_all_annotations json_chunks).

Lemma save_all_annotations_spec (annotator : string)
    (annotations : list annotation) (flt : fault) (fs : gmap string string) :
  let path := get_annotation_path annotator in
  let chunks := json_chunks annotations in
  save_all_annotations annotator annotations flt fs =
    match flt with
    | NoFault => (<[path := written chunks]> fs, Ok tt)
    | FailMakedirs | FailOpen => (fs, Raise OSError)
    | FailWrite k =>
        if decide (k < length chunks)
        then (<[path := written (take k chunks)]> fs, Raise OSError)
        else (<[path := written chunks]> fs, Ok tt)
    end.
Proof.
  intros path chunks. unfold save_all_annotations.
  destruct flt as [| | |k]; try done.
  - fold path chunks.
    rewrite (write_chunks_spec path chunks 0 NoFault _ "")
      by apply lookup_insert_eq.
    by rewrite insert_insert_eq, append_nil_l.
  - fold path chunks.
    rewrite (write_chunks_spec path chunks 0 (FailWrite k) _ "")
      by apply lookup_insert_eq.
    rewrite Nat.sub_0_r, !insert_insert_eq, !append_nil_l.
    destruct (decide (k < length chunks)).
    + by rewrite decide_True by lia.
    + by rewrite decide_False by lia.
Qed.

(** C4, as the code has it.  The final submit opens the annotator's
    file for writing, which empties it, and writes the chunks of the
    buffer's values into it one after the other.  Without a failure the
    file holds the whole text and the session state is cleared.  With a
    failure the exception leaves the script before the state is
    cleared: the session is as it was, in review mode.  The store is
    as it was only if the failure came before the file was opened; a
    failure at the write of chunk [k] leaves in the file the first [k]
    chunks and nothing of what it held before. *)
Theorem commit_rewrites_file_in_place (st : session) (inp : inputs)
    (fs : gmap string string) :
  review_mode st = true ->
  let path := get_annotation_path (annotator_id st) in
  let chunks := json_chunks (dict_values (annotations_buffer st)) in
  run ClickFinalSubmit inp st fs =
    match in_fault inp with
    | NoFault => (<[path := written chunks]> fs, Cleared)
    | FailMakedirs | FailOpen => (fs, Raised OSError st)
    | FailWrite k =>
        if decide (k < length chunks)
        then (<[path := written (take k chunks)]> fs, Raised OSError st)
        else (<[path := written chunks]> fs, Cleared)
    end.
Proof.
  intros Hm path chunks. unfold run.
  rewrite andb_false_r, Hm. unfold review_page.
  rewrite save_all_annotations_spec. fold path chunks.
  destruct (in_fault inp) as [| | |k]; try done.
  by destruct (decide (k < length chunks)).
Qed.

End store_facts.

(** ** The statements on concrete sessions *)

Lemma keep_order_perm (l : list sample) : keep_order l ≡ₚ l.
Proof. reflexivity. Qed.

Lemma range_slider_takes_range (z : Z) :
  (1 <= z <= 5)%Z -> range_slider 1 5 (PInt z) = true.
Proof.
  intros [? ?]. unfold range_slider.
  apply andb_true_iff. split; apply Z.leb_le; lia.
Qed.

Lemma range_slider_refuses_str (s : string) :
  range_slider 1 5 (PStr s) = false.
Proof. reflexivity. Qed.

Lemma step_example (ev : event) (inp : inputs) (st : session) :
  session_after (interact range_slider bracket_chunks ev inp st ∅).2
    = Some (state_after ev inp st) ->
  step range_slider bracket_chunks st (state_after ev inp st).
Proof. intros H. by exists ev, inp, ∅. Qed.

(** A save on the sample without anomaly: the buffer held "correct" and
    4 for it, the widgets hand back "partial" and 2, and the record
    stored has "N/A" in both fields. *)
Lemma no_anomaly_saves_na_witness :
  exists st' r,
    run range_slider bracket_chunks ClickSave good_inputs midway ∅
      = (∅, Rerun st')
    /\ dict_get (IdStr "S2") (annotations_buffer st') = Some r
    /\ a_type_correctness r = Some (PStr "N/A")
    /\ a_localization_score r = Some (PStr "N/A")
    /\ a_anomaly_presence r = Some (PStr "no")
    /\ a_grounded_reasoning r = Some (PInt 5).
Proof.
  exact (no_anomaly_saves_na range_slider bracket_chunks midway good_inputs
           ∅ S2 eq_refl eq_refl eq_refl eq_refl eq_refl eq_refl).
Defined.




(** The session over two catalog entries with one id: the entry stored
    for the first holds "N/A", and the page of the second, which has an
    anomaly, ends in an exception. *)
Lemma hydration_needs_valid_prior_witness :
  exists e,
    run range_slider bracket_chunks NoClick good_inputs shared_id_session ∅
    = (∅, Raised e shared_id_session).
Proof.
  destruct (hydration_needs_valid_prior range_slider bracket_chunks
              range_slider_takes_range range_slider_refuses_str
              shared_id_session good_inputs S1
              (saved_record S1_no_anomaly "A1"
                 {| f_anomaly_presence := PStr "no";
                    f_type_correctness := PStr "N/A";
                    f_localization_score := PStr "N/A";
                    f_grounded_reasoning := PInt 5 |}
                 "2024-05-06T07:08:09")
              eq_refl eq_refl eq_refl)
    as (_ & _ & Hna).
  destruct (Hna (or_introl eq_refl)) as (e & _ & Hrun).
  exists e. exact (Hrun NoClick ∅ eq_refl ltac:(discriminate)).
Defined.

(** C3 fails as stated: the catalog is [S1] and the store holds one
    annotation, of a sample S9 that is not in the catalog; the ids are
    distinct on both sides, the queue is [S1], and 1 + 1 is not 1. *)
Lemma queue_size_law_stale_annotation :
  ¬ spec_queue_size_law keep_order "A1" [S1]
      [answer "S9" (PStr "correct") (PInt 4)].
Proof.
  intros Hspec.
  specialize (Hspec (NoDup_singleton _) (NoDup_singleton _)).
  vm_compute in Hspec. discriminate Hspec.
Qed.

Lemma queue_is_unannotated_catalog_witness :
  sample_order resumed ≡ₚ [S2; S3]
  /\ total_samples resumed = 3
  /\ length (sample_order resumed) + 1 = 3.
Proof.
  destruct (queue_is_unannotated_catalog keep_order keep_order_perm "A1"
              [S1; S2; S3] [answer "S1" (PStr "correct") (PInt 4)])
    as (Hq & Ht & Hlen).
  split; [exact Hq|]. split; [exact Ht|].
  apply Hlen.
  - vm_compute. repeat constructor; set_solver.
  - apply NoDup_singleton.
  - intros a ->%list_elem_of_singleton. vm_compute. apply elem_of_cons; by left.
Defined.

(** C6 fails as stated: the catalog is [S1] and S1 was answered before;
    the queue is empty and the session starts in annotating mode. *)
Lemma initial_mode_with_empty_queue :
  ¬ spec_initial_mode
      (init_session keep_order "A1" [S1]
         [answer "S1" (PStr "correct") (PInt 4)]).
Proof. unfold spec_initial_mode. vm_compute. discriminate. Qed.

Lemma init_mode_is_annotating_witness :
  let st := init_session keep_order "A1" [S1]
              [answer "S1" (PStr "correct") (PInt 4)] in
  review_mode st = false
  /\ done st <= total st
  /\ run range_slider bracket_chunks NoClick good_inputs st ∅
     = (∅, Stopped st).
Proof.
  destruct (init_mode_is_annotating keep_order range_slider bracket_chunks
              "A1" [S1] [answer "S1" (PStr "correct") (PInt 4)])
    as [Hmode Hpage].
  split; [exact Hmode|].
  destruct Hpage as [Hdone Hstop].
  { intros a ->%list_elem_of_singleton. vm_compute.
    apply elem_of_cons; by left. }
  split; [exact Hdone|].
  apply Hstop; [reflexivity|]. right. discriminate.
Defined.

(** C8 fails as stated: the catalog is [S1] and the store holds
    annotations of S1 and of a sample S9 that is not in the catalog;
    the session starts with 2 done out of a total of 1. *)
Lemma progress_exceeds_total_with_stale_annotation :
  ¬ spec_progress_bounded keep_order range_slider bracket_chunks "A1" [S1]
      [answer "S1" (PStr "correct") (PInt 4);
       answer "S9" (PStr "correct") (PInt 4)].
Proof.
  intros Hspec. specialize (Hspec _ (rtc_refl _ _)).
  vm_compute in Hspec. lia.
Qed.

Lemma progress_monotone_and_bounded_witness :
  done resumed <= done resumed_one_saved
  /\ done resumed_one_saved <= total resumed_one_saved.
Proof.
  destruct (progress_monotone_and_bounded keep_order range_slider
              bracket_chunks keep_order_perm "A1" [S1; S2; S3]
              [answer "S1" (PStr "correct") (PInt 4)])
    as [Hmono Hbound].
  assert (Hreach : rtc (step range_slider bracket_chunks) resumed
                     resumed_one_saved).
  { apply rtc_once. apply (step_example ClickSave good_inputs). reflexivity. }
  split; [exact (Hmono _ _ Hreach)|].
  apply Hbound; [|exact Hreach].
  intros a ->%list_elem_of_singleton. vm_compute. apply elem_of_cons; by left.
Defined.

(** C4 fails as stated: the write of the second chunk fails; the
    session is as it was, in review mode, and the file that held the
    earlier text now holds the first chunk alone. *)
Lemma commit_failure_loses_prior_contents :
  ¬ spec_commit_atomic range_slider bracket_chunks reviewing3
      (with_fault (FailWrite 1) good_inputs) old_store.
Proof.
  intros Hspec.
  destruct (Hspec _ _ (surjective_pairing _)) as [Hc|[_ Hfs]].
  - vm_compute in Hc. discriminate Hc.
  - apply (f_equal (fun m : gmap string string => m !! "annotations/A1.json"))
      in Hfs.
    vm_compute in Hfs. discriminate Hfs.
Qed.

Lemma commit_rewrites_file_in_place_witness :
  run range_slider bracket_chunks ClickFinalSubmit
    (with_fault (FailWrite 1) good_inputs) reviewing3 old_store
  = (<["annotations/A1.json" := "["]> old_store, Raised OSError reviewing3).
Proof.
  exact (commit_rewrites_file_in_place range_slider bracket_chunks reviewing3
           (with_fault (FailWrite 1) good_inputs) old_store eq_refl).
Defined.

(** C7 at a resumed session.  The catalog has S1, S2, S3 and S1 was
    answered before, so the queue is [S2; S3] and the buffer starts with
    one entry.  After the save of S2 the buffer has two entries, as
    many as the queue: the review-all button is offered although S3 has
    no answer.  After the save of S3 and the way back from the review
    page every sample of the queue has an answer, the buffer has three
    entries, and the button is not offered. *)
Theorem review_guard_in_resumed_session :
  rtc (step range_slider bracket_chunks) resumed resumed_one_saved
  /\ review_mode resumed_one_saved = false
  /\ queue_fully_answered resumed_one_saved = false
  /\ review_all_offered resumed_one_saved = true
  /\ rtc (step range_slider bracket_chunks) resumed resumed_all_saved
  /\ review_mode resumed_all_saved = false
  /\ queue_fully_answered resumed_all_saved = true
  /\ review_all_offered resumed_all_saved = false.
Proof.
  assert (H1 : rtc (step range_slider bracket_chunks) resumed
                 resumed_one_saved).
  { apply rtc_once. apply (step_example ClickSave good_inputs). reflexivity. }
  split_and!; try reflexivity; [exact H1|].
  etrans; [exact H1|].
  apply (rtc_l _ _ (state_after ClickSave good_inputs resumed_one_saved));
    [apply (step_example ClickSave good_inputs); reflexivity|].
  apply rtc_once.
  apply (step_example (ClickReviewItem 0) good_inputs). reflexivity.
Qed.

(** * More of the script *)

(** ** Paths *)

Lemma append_cons (c : ascii) (s t : string) :
  String c s +:+ t = String c (s +:+ t).
Proof. reflexivity. Qed.

Lemma length_append (s t : string) :
  String.length (s +:+ t) = String.length s + String.length t.
Proof.
  induction s as [|c s IHs]; [done|].
  rewrite append_cons. cbn [String.length]. by rewrite IHs.
Qed.

Lemma append_inj_r (s1 s2 t : string) : s1 +:+ t = s2 +:+ t -> s1 = s2.
Proof.
  revert s2. induction s1 as [|c1 s1 IHs]; intros [|c2 s2] Heq; [done| | |].
  - apply (f_equal String.length) in Heq.
    rewrite append_nil_l, append_cons in Heq. cbn [String.length] in Heq.
    rewrite length_append in Heq. lia.
  - apply (f_equal String.length) in Heq.
    rewrite append_nil_l, append_cons in Heq. cbn [String.length] in Heq.
    rewrite length_append in Heq. lia.
  - rewrite !append_cons in Heq. injection Heq as -> Heq.
    f_equal. by apply IHs.
Qed.

Lemma path_join_annotations (b : string) :
  path_join ANNOTATIONS_DIR b
  = if starts_with_sep b then b else "annotations/" +:+ b.
Proof.
  destruct b as [|c b]; [reflexivity|].
  destruct c as [[] [] [] [] [] [] [] []]; reflexivity.
Qed.

(** The file of an annotator: inside the directory, unless the id
    starts with the separator, in which case the directory is dropped. *)
Lemma annotation_path_shape (annotator : string) :
  get_annotation_path annotator
  = if starts_with_sep annotator then annotator +:+ ".json"
    else "annotations/" +:+ annotator +:+ ".json".
Proof.
  unfold get_annotation_path. rewrite path_join_annotations.
  by destruct annotator.
Qed.

Lemma annotation_path_eq (a b : string) :
  get_annotation_path a = get_annotation_path b -> a = b.
Proof.
  rewrite !annotation_path_shape.
  destruct (starts_with_sep a) eqn:Ha, (starts_with_sep b) eqn:Hb; intros Heq.
  - by eapply append_inj_r.
  - destruct a as [|c a]; [done|]. cbn in Ha.
    apply bool_decide_eq_true in Ha as ->. discriminate Heq.
  - destruct b as [|c b]; [done|]. cbn in Hb.
    apply bool_decide_eq_true in Hb as ->. discriminate Heq.
  - apply (inj (String.append "annotations/")) in Heq.
    by eapply append_inj_r.
Qed.

Lemma has_sep_app (a t : string) :
  has_sep (a +:+ t) = has_sep a || has_sep t.
Proof.
  induction a as [|c a IHa]; [done|].
  rewrite append_cons. cbn [has_sep]. by rewrite IHa, orb_assoc.
Qed.

Lemma has_sep_starts (a : string) :
  has_sep a = false -> starts_with_sep a = false.
Proof.
  destruct a as [|c a]; [done|]. cbn.
  by intros [? _]%orb_false_iff.
Qed.

(** X1.  Two annotators whose ids contain no separator have different
    files: each file is an entry of the annotations directory, its
    name [<id>.json] contains no separator either, and the two names
    differ. *)
Theorem plain_ids_have_different_files (a b : string) :
  a ≠ b -> has_sep a = false -> has_sep b = false ->
  get_annotation_path a = "annotations/" +:+ (a +:+ ".json")
  /\ get_annotation_path b = "annotations/" +:+ (b +:+ ".json")
  /\ has_sep (a +:+ ".json") = false
  /\ has_sep (b +:+ ".json") = false
  /\ a +:+ ".json" ≠ b +:+ ".json".
Proof.
  intros Hne Ha Hb. rewrite !annotation_path_shape.
  rewrite (has_sep_starts a Ha), (has_sep_starts b Hb), !has_sep_app, Ha, Hb.
  split_and!; try done.
  intros Heq. by apply Hne, (append_inj_r a b ".json").
Qed.

(** ** What reaches the store *)

Section store_frame.
Variable slider_accepts : Z -> Z -> pyval -> bool.
Variable json_chunks : list annotation -> list string.

Abbreviation run := (run slider_accepts json_chunks).
Abbreviation interact := (interact slider_accepts json_chunks).

Lemma run_store (ev : event) (inp : inputs) (st : session)
    (fs : gmap string string) :
  (run ev inp st fs).1
  = if bool_decide (ev = ClickFinalSubmit) && review_mode st
    then (save_all_annotations json_chunks (annotator_id st)
            (dict_values (annotations_buffer st)) (in_fault inp) fs).1
    else fs.
Proof.
  unfold run.
  destruct (review_all_offered st && bool_decide (ev = ClickReviewAll)) eqn:Hra.
  - apply andb_true_iff in Hra as [_ ->%bool_decide_eq_true]. done.
  - destruct (review_mode st); [|by rewrite andb_false_r].
    unfold review_page. destruct ev; cbn; try done.
    + by destruct (decide (i < length (sample_order st))).
    + by destruct (save_all_annotations _ _ _ _ _) as [fs' [[]|e]].
Qed.

Lemma interact_store (ev : event) (inp : inputs) (st : session)
    (fs : gmap string string) :
  (interact ev inp st fs).1 = (run ev inp st fs).1.
Proof.
  unfold interact. destruct (run ev inp st fs) as [fs1 [st1|st1|e st1|]];
    try done.
  cbn [fst]. rewrite run_store. done.
Qed.

(** X2.  Nothing but the final submit of the review page writes to the
    store: after any other interaction the store is what it was. *)
Theorem store_written_by_final_submit_only (ev : event) (inp : inputs)
    (st : session) (fs : gmap string string) :
  ev ≠ ClickFinalSubmit \/ review_mode st = false ->
  (interact ev inp st fs).1 = fs.
Proof.
  intros Hcase. rewrite interact_store, run_store.
  destruct Hcase as [Hev| ->].
  - by rewrite (bool_decide_eq_false_2 _ Hev).
  - by rewrite andb_false_r.
Qed.


End store_frame.

(** ** More on dictionaries *)

Lemma dict_set_notin {V : Type} (d : list (sid * V)) (k : sid) (v : V) :
  k ∉ dict_keys d -> dict_set k v d = d ++ [(k, v)].
Proof.
  unfold dict_keys. induction d as [|[k' v'] d IHd]; [done|].
  rewrite fmap_cons, not_elem_of_cons. cbn [fst]. intros [Hne Hnin].
  cbn [dict_set]. rewrite decide_False by done. by rewrite IHd.
Qed.

Lemma dict_set_app_r {V : Type} (d1 d2 : list (sid * V)) (k : sid) (v : V) :
  k ∉ dict_keys d1 -> dict_set k v (d1 ++ d2) = d1 ++ dict_set k v d2.
Proof.
  unfold dict_keys. induction d1 as [|[k' v'] d1 IHd]; [done|].
  rewrite fmap_cons, not_elem_of_cons. cbn [fst]. intros [Hne Hnin].
  cbn [app dict_set]. rewrite decide_False by done. by rewrite IHd.
Qed.

Lemma dict_get_set_is_Some {V : Type} (d : list (sid * V)) (k k' : sid)
    (v : V) :
  is_Some (dict_get k d) -> is_Some (dict_get k (dict_set k' v d)).
Proof.
  intros Hk. destruct (decide (k = k')) as [->|Hne].
  - rewrite dict_get_set_eq. eauto.
  - by rewrite dict_get_set_ne.
Qed.

Lemma self_keyed_set (d : list (sid * annotation)) (k : sid) (v : annotation) :
  a_sample_id v = k -> self_keyed d -> self_keyed (dict_set k v d).
Proof.
  intros Hv. unfold self_keyed. induction d as [|[k' v'] d IHd]; intros Hd.
  - cbn. by constructor.
  - apply Forall_cons in Hd as [Hhd Htl]. cbn [dict_set].
    destruct (decide (k = k')) as [->|Hne]; constructor; auto.
Qed.

Lemma dict_by_sample_id_self_keyed (l : list annotation) :
  self_keyed (dict_by_sample_id l).
Proof.
  unfold dict_by_sample_id.
  assert (H : forall d, self_keyed d ->
            self_keyed (fold_left (fun d a => dict_set (a_sample_id a) a d) l d)).
  { induction l as [|a l IHl]; intros d Hd; [done|].
    cbn [fold_left]. apply IHl. by apply self_keyed_set. }
  apply H. constructor.
Qed.

Lemma self_keyed_values (d : list (sid * annotation)) :
  self_keyed d -> a_sample_id <$> dict_values d = dict_keys d.
Proof.
  unfold self_keyed, dict_values, dict_keys.
  induction 1 as [|[k v] d Hkv _ IHd]; [done|].
  cbn in *. by rewrite Hkv, IHd.
Qed.

(** Building the dictionary from the values of a dictionary with
    distinct keys whose entries sit under their own id gives it back,
    in the same order. *)
Lemma dict_by_sample_id_values (d : list (sid * annotation)) :
  NoDup (dict_keys d) -> self_keyed d ->
  dict_by_sample_id (dict_values d) = d.
Proof.
  unfold dict_by_sample_id.
  assert (H : forall d2 d1, NoDup (dict_keys (d1 ++ d2)) -> self_keyed d2 ->
            fold_left (fun d a => dict_set (a_sample_id a) a d)
              (dict_values d2) d1 = d1 ++ d2).
  { unfold dict_keys, dict_values, self_keyed.
    induction d2 as [|[k v] d2 IHd]; intros d1 Hnd Hsk.
    - by rewrite app_nil_r.
    - apply Forall_cons in Hsk as [Hkv Hsk]. cbn in Hkv.
      cbn [fmap list_fmap snd fold_left]. rewrite Hkv.
      rewrite fmap_app, fmap_cons in Hnd. cbn [fst] in Hnd.
      apply NoDup_app in Hnd as (Hnd1 & Hdisj & Hnd2).
      rewrite dict_set_notin.
      2:{ intros Hin. apply (Hdisj k Hin). apply elem_of_cons; by left. }
      rewrite (IHd (d1 ++ [(k, v)])); [by rewrite <- app_assoc| |done].
      rewrite <- app_assoc. cbn [app].
      rewrite fmap_app, fmap_cons. cbn [fst].
      apply NoDup_app. split_and!; done. }
  intros Hnd Hsk. by rewrite (H d []).
Qed.


(** ** Invariants of a session *)

Lemma answered_upto_ext (n m : nat) (st st' : session) :
  sample_order st' = sample_order st ->
  (forall k, is_Some (dict_get k (annotations_buffer st)) ->
             is_Some (dict_get k (annotations_buffer st'))) ->
  n <= m -> answered_upto m st -> answered_upto n st'.
Proof.
  intros Hq Hb Hnm Hm i smp Hi Hs. rewrite Hq in Hs.
  apply Hb. apply (Hm i smp); [lia|done].
Qed.

Lemma answered_upto_save (idx : nat) (st st' : session) (smp : sample)
    (r : annotation) :
  sample_order st' = sample_order st ->
  annotations_buffer st'
    = dict_set (s_id smp) r (annotations_buffer st) ->
  sample_order st !! idx = Some smp ->
  answered_upto idx st -> answered_upto (S idx) st'.
Proof.
  intros Hq Hb Hs Hidx i smp' Hi Hs'. rewrite Hq in Hs'. rewrite Hb.
  destruct (decide (i = idx)) as [->|Hne].
  - rewrite Hs in Hs'. injection Hs' as <-. rewrite dict_get_set_eq. eauto.
  - apply dict_get_set_is_Some. apply (Hidx i smp'); [lia|done].
Qed.

Lemma answered_upto_full (st : session) :
  answered_upto (length (sample_order st)) st <-> queue_fully_answered st = true.
Proof.
  rewrite queue_fully_answered_spec. split.
  - intros Hall smp Hin. apply dict_get_is_Some.
    apply list_elem_of_lookup in Hin as [i Hi].
    apply (Hall i smp); [|done]. by eapply lookup_lt_Some.
  - intros Hall i smp _ Hs. apply dict_get_is_Some, Hall.
    by eapply list_elem_of_lookup_2.
Qed.

Section session_facts.
Variable shuffle : list sample -> list sample.
Variable slider_accepts : Z -> Z -> pyval -> bool.
Variable json_chunks : list annotation -> list string.
Hypothesis shuffle_perm : forall l, shuffle l ≡ₚ l.

Abbreviation init_session := (init_session shuffle).
Abbreviation render_form := (render_form slider_accepts).
Abbreviation annotation_page := (annotation_page slider_accepts).
Abbreviation run := (run slider_accepts json_chunks).
Abbreviation interact := (interact slider_accepts json_chunks).
Abbreviation step := (step slider_accepts json_chunks).

(** The one assignment an execution can make to the buffer: the record
    of the save handler, under the id of the current sample. *)
Lemma run_buffer (ev : event) (inp : inputs) (st st' : session)
    (fs : gmap string string) :
  session_after (run ev inp st fs).2 = Some st' ->
  annotations_buffer st' = annotations_buffer st
  \/ exists smp f,
       smp ∈ sample_order st
       /\ annotations_buffer st'
          = dict_set (s_id smp)
              (saved_record smp (annotator_id st) f (in_utcnow inp))
              (annotations_buffer st).
Proof.
  unfold run.
  destruct (review_all_offered st && bool_decide (ev = ClickReviewAll)).
  { cbn. intros [= <-]. by left. }
  destruct (review_mode st).
  - unfold review_page. destruct ev; cbn; try (intros [= <-]; by left).
    + destruct (decide (i < length (sample_order st))); cbn;
        intros [= <-]; by left.
    + destruct (save_all_annotations _ _ _ _ _) as [fs' [[]|e]]; cbn;
        [done|]. intros [= <-]. by left.
  - cbn [snd]. unfold annotation_page.
    destruct (decide (sample_order st = [])); [cbn; intros [= <-]; by left|].
    set (idx := current_idx st `min` (length (sample_order st) - 1)).
    destruct (sample_order st !! idx) as [smp|] eqn:Hs;
      [|cbn; intros [= <-]; by left].
    cbn [annotations_buffer set_current_idx annotator_id].
    destruct (render_form _ _ inp) as [f|e];
      [|cbn; intros [= <-]; by left].
    destruct ev; try (cbn; intros [= <-]; by left).
    + destruct (decide (0 < idx)); cbn; intros [= <-]; by left.
    + apply list_elem_of_lookup_2 in Hs. right. exists smp, f.
      split; [done|].
      destruct (decide (idx < length (sample_order st) - 1)); cbn in *;
        by injection H as <-.
Qed.

Lemma step_buffer (st st' : session) :
  step st st' ->
  annotations_buffer st' = annotations_buffer st
  \/ exists smp r,
       smp ∈ sample_order st /\ a_sample_id r = s_id smp
       /\ annotations_buffer st' = dict_set (s_id smp) r (annotations_buffer st).
Proof.
  intros (ev & inp & fs & Hstep). unfold interact in Hstep.
  destruct (run ev inp st fs) as [fs1 o] eqn:Hrun.
  assert (Hfirst : forall st1, session_after o = Some st1 ->
            annotations_buffer st1 = annotations_buffer st
            \/ exists smp r,
                 smp ∈ sample_order st /\ a_sample_id r = s_id smp
                 /\ annotations_buffer st1
                    = dict_set (s_id smp) r (annotations_buffer st)).
  { intros st1 Ho.
    destruct (run_buffer ev inp st st1 fs) as [?|(smp & f & ? & ?)];
      [by rewrite Hrun|by left|].
    right. by exists smp, (saved_record smp (annotator_id st) f (in_utcnow inp)). }
  destruct o as [st1|st1|e st1|]; cbn in Hstep; [auto| |auto|done].
  rewrite (run_frame_no_save _ _ NoClick inp st1 st' fs1 ltac:(done) Hstep).
  auto.
Qed.

(** The keys of the buffer are distinct and every entry sits under its
    own [sample_id], in every state of a session. *)
Lemma reachable_self_keyed (annotator : string) (C : list sample)
    (A : list annotation) (st : session) :
  rtc step (init_session annotator C A) st ->
  NoDup (dict_keys (annotations_buffer st))
  /\ self_keyed (annotations_buffer st).
Proof.
  intros Hsteps.
  assert (H0 : NoDup (dict_keys (annotations_buffer
                                   (init_session annotator C A)))
               /\ self_keyed (annotations_buffer (init_session annotator C A)))
    by (split; [apply dict_by_sample_id_NoDup
               |apply dict_by_sample_id_self_keyed]).
  revert H0. induction Hsteps as [|st0 st1 st2 Hstep _ IH]; [done|].
  intros [Hnd Hsk]. apply IH.
  apply step_buffer in Hstep as [->|(smp & r & _ & Hr & ->)]; [done|].
  split; [by apply dict_keys_set_NoDup|by apply self_keyed_set].
Qed.

(** X4.  In every state of a session the cursor is a position of the
    queue, so an execution with no button pressed changes nothing: the
    store and the session state are what they were. *)
Theorem rerun_changes_nothing (annotator : string) (C : list sample)
    (A : list annotation) (st : session) (inp : inputs)
    (fs : gmap string string) :
  rtc step (init_session annotator C A) st ->
  current_idx st <= length (sample_order st) - 1
  /\ (run NoClick inp st fs).1 = fs
  /\ session_after (run NoClick inp st fs).2 = Some st.
Proof.
  intros Hsteps.
  pose proof (reachable_cursor_in_range _ _ _ _ _ _ _ Hsteps) as Hc.
  split; [done|]. split; [by rewrite run_store|].
  unfold run. rewrite andb_false_r.
  destruct (review_mode st); [done|]. cbn [snd]. unfold annotation_page.
  destruct (decide (sample_order st = [])); [done|].
  replace (current_idx st `min` (length (sample_order st) - 1))
    with (current_idx st) by lia.
  rewrite set_current_idx_same.
  destruct (sample_order st !! current_idx st); [|done].
  by destruct (render_form _ _ inp).
Qed.

(** X5.  A session built from the values of the buffer of any state of
    a session has that same buffer, entry for entry and in the same
    order, whatever the catalog it is built over. *)
Theorem resume_restores_buffer (annotator : string) (C : list sample)
    (A : list annotation) (st : session)
    (annotator' : string) (C' : list sample) :
  rtc step (init_session annotator C A) st ->
  annotations_buffer
    (init_session annotator' C' (dict_values (annotations_buffer st)))
  = annotations_buffer st.
Proof.
  intros [Hnd Hsk]%reachable_self_keyed. cbn.
  by apply dict_by_sample_id_values.
Qed.

(** X6.  The entries loaded at initialisation stay in the buffer as
    they were and where they were: in every state of the session the
    buffer is the initial buffer followed by entries whose keys are ids
    of queue samples, none of them the id of a prior annotation. *)
Theorem prior_annotations_kept (annotator : string) (C : list sample)
    (A : list annotation) (st : session) :
  rtc step (init_session annotator C A) st ->
  exists new,
    annotations_buffer st = dict_by_sample_id A ++ new
    /\ forall k, k ∈ dict_keys new ->
         k ∈ s_id <$> sample_order st /\ k ∉ a_sample_id <$> A.
Proof.
  intros Hsteps. pose proof (steps_total _ _ _ _ Hsteps) as [_ Hq].
  rewrite Hq. clear Hq. revert st Hsteps. apply rtc_ind_r.
  - exists []. split; [by rewrite app_nil_r|].
    intros k ?%elem_of_nil. done.
  - intros st1 st2 Hsteps Hstep (new & Hb & Hnew).
    pose proof (steps_total _ _ _ _ Hsteps) as [_ Hq].
    apply step_buffer in Hstep as [->|(smp & r & Hin & _ & ->)]; [eauto|].
    rewrite Hq in Hin.
    assert (Hid : s_id smp ∉ a_sample_id <$> A).
    { cbn in Hin. rewrite shuffle_perm in Hin.
      by apply list_elem_of_filter in Hin as [? _]. }
    exists (dict_set (s_id smp) r new). split.
    + rewrite Hb. apply dict_set_app_r. by rewrite dict_by_sample_id_keys.
    + intros k [->|Hk]%dict_keys_set_elem; [|auto].
      split; [by apply list_elem_of_fmap_2|done].
Qed.

End session_facts.

(** ** The review page of a session without prior annotations *)

Lemma filter_none {A : Type} (P : A -> Prop) `{!forall x, Decision (P x)}
    (l : list A) :
  (forall x, x ∈ l -> ¬ P x) -> filter P l = [].
Proof.
  induction l as [|x l IHl]; intros Hl; [done|].
  rewrite filter_cons_False by (apply Hl, elem_of_cons; by left).
  apply IHl. intros y Hy. apply Hl, elem_of_cons. by right.
Qed.

Lemma filter_no_prior (C : list sample) :
  filter (fun s => s_id s ∉ a_sample_id <$> ([] : list annotation)) C = C.
Proof.
  induction C as [|s l IHl]; [done|].
  rewrite filter_cons_True by apply not_elem_of_nil. by f_equal.
Qed.

Section review_facts.
Variable shuffle : list sample -> list sample.
Variable slider_accepts : Z -> Z -> pyval -> bool.
Variable json_chunks : list annotation -> list string.
Hypothesis shuffle_perm : forall l, shuffle l ≡ₚ l.

Abbreviation init_session := (init_session shuffle).
Abbreviation render_form := (render_form slider_accepts).
Abbreviation annotation_page := (annotation_page slider_accepts).
Abbreviation run := (run slider_accepts json_chunks).
Abbreviation interact := (interact slider_accepts json_chunks).
Abbreviation step := (step slider_accepts json_chunks).

(** An execution keeps the queue answered up to the bound, as long as
    the review-all button is only offered on a fully answered queue. *)
Lemma run_answered (ev : event) (inp : inputs) (st st' : session)
    (fs : gmap string string) :
  (ev = ClickReviewAll -> review_all_offered st = true ->
   queue_fully_answered st = true) ->
  answered_upto (review_bound st) st ->
  session_after (run ev inp st fs).2 = Some st' ->
  answered_upto (review_bound st') st'.
Proof.
  intros Hguard Hinv. unfold run.
  destruct (review_all_offered st && bool_decide (ev = ClickReviewAll)) eqn:Hra.
  { apply andb_true_iff in Hra as [Hoff ->%bool_decide_eq_true].
    cbn [snd session_after]. intros [= <-].
    apply (answered_upto_ext _ (length (sample_order st)) st); [done|done|done|].
    apply answered_upto_full. auto. }
  unfold review_bound in Hinv.
  destruct (review_mode st) eqn:Hm.
  - assert (Hsame : answered_upto (review_bound st) st)
      by (unfold review_bound; by rewrite Hm).
    unfold review_page.
    destruct ev; cbn [snd session_after]; try (by intros [= <-]).
    + destruct (decide (i < length (sample_order st)));
        cbn [snd session_after]; intros [= <-]; [|done].
      apply (answered_upto_ext _ (length (sample_order st)) st);
        [done|done| |done].
      unfold review_bound. cbn. lia.
    + destruct (save_all_annotations _ _ _ _ _) as [fs' [[]|e]];
        cbn [snd session_after]; [done|]. by intros [= <-].
  - cbn [snd]. unfold annotation_page.
    destruct (decide (sample_order st = [])) as [Hnil|Hne].
    { cbn [session_after]. intros [= <-]. unfold review_bound.
      by rewrite Hm. }
    set (idx := current_idx st `min` (length (sample_order st) - 1)).
    assert (Hlen : 0 < length (sample_order st))
      by (destruct (sample_order st); cbn; [done|lia]).
    assert (Hidx : answered_upto idx (set_current_idx idx st)).
    { apply (answered_upto_ext _ (current_idx st) st); [done|done|lia|done]. }
    assert (Hst0 : answered_upto (review_bound (set_current_idx idx st))
                     (set_current_idx idx st)).
    { unfold review_bound. cbn [review_mode set_current_idx current_idx].
      by rewrite Hm. }
    destruct (sample_order st !! idx) as [smp|] eqn:Hs;
      [|cbn [session_after]; by intros [= <-]].
    cbn [annotations_buffer set_current_idx annotator_id current_idx].
    destruct (render_form _ _ inp) as [f|e];
      [|cbn [session_after]; by intros [= <-]].
    destruct ev; try (cbn [session_after]; by intros [= <-]).
    + destruct (decide (0 < idx)); cbn [session_after]; intros [= <-];
        [|done].
      apply (answered_upto_ext _ idx (set_current_idx idx st));
        [done|done| |done].
      unfold review_bound. cbn. rewrite Hm. lia.
    + destruct (decide (idx < length (sample_order st) - 1));
        cbn [session_after]; intros [= <-].
      * unfold review_bound. cbn. rewrite Hm, Nat.add_1_r.
        eapply (answered_upto_save idx (set_current_idx idx st)); done.
      * unfold review_bound. cbn.
        replace (length (sample_order st)) with (S idx) by lia.
        eapply (answered_upto_save idx (set_current_idx idx st)); done.
Qed.

Lemma fresh_answered (annotator : string) (C : list sample) (st : session) :
  NoDup (s_id <$> C) ->
  rtc step (init_session annotator C []) st ->
  answered_upto (review_bound st) st.
Proof.
  intros HC. revert st. apply rtc_ind_r.
  - intros i smp Hi. unfold review_bound in Hi. cbn in Hi. lia.
  - intros st1 st2 Hsteps (ev & inp & fs & Hstep) IH.
    unfold interact in Hstep.
    destruct (run ev inp st1 fs) as [fs1 o] eqn:Hrun.
    assert (Hfirst : forall st', session_after o = Some st' ->
              answered_upto (review_bound st') st').
    { intros st' Ho.
      apply (run_answered ev inp st1 st' fs); [|done|by rewrite Hrun].
      intros -> Hoff.
      rewrite (fresh_session_review_guard shuffle slider_accepts json_chunks
                 shuffle_perm annotator C st1 HC Hsteps) in Hoff.
      by apply andb_true_iff in Hoff as [? _]. }
    destruct o as [st'|st'|e st'|]; cbn in Hstep.
    + injection Hstep as <-. by apply Hfirst.
    + apply (run_answered NoClick inp st' st2 fs1); [done|by apply Hfirst|done].
    + injection Hstep as <-. by apply Hfirst.
    + done.
Qed.

(** X7.  In a session started without prior annotations over a catalog
    with distinct ids, the review page is only reached with the whole
    queue answered: none of its labels carries the warning sign. *)
Theorem fresh_review_is_complete (annotator : string) (C : list sample)
    (st : session) :
  NoDup (s_id <$> C) ->
  rtc step (init_session annotator C []) st ->
  review_mode st = true ->
  queue_fully_answered st = true
  /\ Forall (fun e => e.1.1 = false) (review_labels st).
Proof.
  intros HC Hsteps Hm.
  pose proof (fresh_answered annotator C st HC Hsteps) as Hinv.
  unfold review_bound in Hinv. rewrite Hm in Hinv.
  split; [by apply answered_upto_full|].
  apply Forall_lookup. intros i e. unfold review_labels.
  rewrite list_lookup_imap.
  destruct (sample_order st !! i) as [smp|] eqn:Hs; [|done].
  cbn. intros [= <-]. cbn. apply bool_decide_eq_false.
  destruct (Hinv i smp) as [a Ha]; [by eapply lookup_lt_Some|done|].
  by rewrite Ha.
Qed.

(** X8.  Once every sample of such a session is answered, a session
    built over the same catalog from the values of its buffer has an
    empty queue, and its progress is the whole catalog out of the whole
    catalog. *)
Theorem answered_session_resumes_empty (annotator : string) (C : list sample)
    (st : session) (annotator' : string) :
  NoDup (s_id <$> C) ->
  rtc step (init_session annotator C []) st ->
  queue_fully_answered st = true ->
  let st2 := init_session annotator' C (dict_values (annotations_buffer st)) in
  sample_order st2 = []
  /\ done st2 = length C
  /\ total st2 = length C.
Proof.
  intros HC Hsteps Hfull st2.
  destruct (reachable_self_keyed shuffle slider_accepts json_chunks
              annotator C [] st Hsteps) as [Hnd Hsk].
  pose proof (steps_total _ _ _ _ Hsteps) as [_ Hq].
  assert (Hq0 : sample_order st ≡ₚ C).
  { rewrite Hq. cbn. by rewrite shuffle_perm, filter_no_prior. }
  assert (Hw : within (s_id <$> sample_order st) st).
  { eapply steps_within; [exact Hsteps|]. rewrite Hq.
    unfold within. split_and!; [apply NoDup_nil_2| |].
    - intros k ?%elem_of_nil. done.
    - intros smp ?. by apply list_elem_of_fmap_2. }
  destruct Hw as (_ & Hkeys & _).
  pose proof (proj1 (queue_fully_answered_spec st) Hfull) as Hall.
  assert (Hp : dict_keys (annotations_buffer st) ≡ₚ s_id <$> C).
  { rewrite <- Hq0. apply NoDup_Permutation; [done|by rewrite Hq0|].
    intros k. split; [by apply Hkeys|].
    intros (smp & -> & Hin)%list_elem_of_fmap. auto. }
  split_and!; [| |done].
  - unfold st2. cbn. rewrite self_keyed_values by done.
    rewrite filter_none; [by apply Permutation_nil_r, shuffle_perm|].
    intros smp Hin Hnin. apply Hnin. rewrite Hp.
    by apply list_elem_of_fmap_2.
  - change (done st2)
      with (dict_len (dict_by_sample_id (dict_values (annotations_buffer st)))).
    rewrite dict_by_sample_id_values by done.
    by rewrite dict_len_keys, Hp, length_fmap.
Qed.

End review_facts.

(** ** Opening a saved answer again *)

Section reopen_facts.
Variable slider_accepts : Z -> Z -> pyval -> bool.
Variable json_chunks : list annotation -> list string.
Hypothesis slider_takes_range :
  forall z : Z, (1 <= z <= 5)%Z -> slider_accepts 1 5 (PInt z) = true.

Abbreviation render_form := (render_form slider_accepts).
Abbreviation run := (run slider_accepts json_chunks).

(** X9.  An answer saved from widget values inside their domains can be
    opened again: after the save the form of that sample is rendered
    whenever the media load, so the page of a sample answered this way
    does not end in an exception of the widgets. *)
Theorem saved_answer_reopens (st : session) (inp : inputs)
    (fs : gmap string string) (smp : sample) (f : form) :
  review_mode st = false ->
  current_sample st = Some smp ->
  render_form (anomaly_of smp)
    (dict_get (s_id smp) (annotations_buffer st)) inp = Ok f ->
  spec_payload_valid (anomaly_of smp) inp = true ->
  exists st',
    run ClickSave inp st fs = (fs, Rerun st')
    /\ forall inp', in_media_loads inp' = true ->
         exists f', render_form (anomaly_of smp)
                      (dict_get (s_id smp) (annotations_buffer st')) inp'
                    = Ok f'.
Proof.
  intros Hm Hs Hf Hvalid.
  pose proof (render_form_fields _ _ _ _ _ Hf) as Hfields.
  unfold spec_payload_valid in Hvalid.
  apply andb_true_iff in Hvalid as [[Hap Hgr]%andb_true_iff Hcond].
  rewrite run_annotating by done.
  rewrite (annotation_page_rendered _ ClickSave inp st smp f Hs Hf).
  cbv zeta.
  assert (Hre : forall d inp', in_media_loads inp' = true ->
            d = dict_set (s_id smp)
                  (saved_record smp (annotator_id st) f (in_utcnow inp))
                  (annotations_buffer st) ->
            exists f', render_form (anomaly_of smp) (dict_get (s_id smp) d) inp'
                       = Ok f').
  { intros d inp' Hmedia ->. rewrite dict_get_set_eq.
    apply render_form_Ok. subst f. cbn.
    split_and!; [done|done| |by apply slider_accepts_in_1_to_5].
    intros Han. rewrite Han in Hcond |- *.
    apply andb_true_iff in Hcond as [Htc Hloc].
    split; [done|by apply slider_accepts_in_1_to_5]. }
  destruct (decide (_ < _)); eexists; (split; [reflexivity|]);
    intros inp' Hmedia; by apply Hre.
Qed.

End reopen_facts.

(** ** From the final submit to the next session *)

Section load_facts.
Variable shuffle : list sample -> list sample.
Variable slider_accepts : Z -> Z -> pyval -> bool.
Variable json_chunks : list annotation -> list string.
Variable json_load : string -> result (list annotation).
Hypothesis shuffle_perm : forall l, shuffle l ≡ₚ l.

Abbreviation init_session := (init_session shuffle).
Abbreviation run := (run slider_accepts json_chunks).
Abbreviation step := (step slider_accepts json_chunks).
Abbreviation load_annotations := (load_annotations json_load).
Abbreviation start_session := (start_session shuffle json_load).

(** X10.  After a final submit that goes through, in any state of a
    session, the next start of that annotator reads the values of the
    buffer back and builds a session with the same buffer, provided
    the decoder gives back what the encoder wrote for them. *)
Theorem final_submit_then_start (annotator : string) (C : list sample)
    (A : list annotation) (st : session) (inp : inputs)
    (fs : gmap string string) (C' : list sample) :
  rtc step (init_session annotator C A) st ->
  review_mode st = true ->
  in_fault inp = NoFault ->
  json_load (written (json_chunks (dict_values (annotations_buffer st))))
    = Ok (dict_values (annotations_buffer st)) ->
  let fs' := (run ClickFinalSubmit inp st fs).1 in
  (run ClickFinalSubmit inp st fs).2 = Cleared
  /\ load_annotations (annotator_id st) true fs'
     = Ok (dict_values (annotations_buffer st))
  /\ exists st2,
       start_session (annotator_id st) (Ok C') true fs' = Ok st2
       /\ annotations_buffer st2 = annotations_buffer st
       /\ total_samples st2 = length C'.
Proof.
  intros Hsteps Hm Hflt Hcodec fs'.
  assert (Hrun : run ClickFinalSubmit inp st fs
                 = (<[get_annotation_path (annotator_id st)
                      := written (json_chunks
                                    (dict_values (annotations_buffer st)))]> fs,
                    Cleared)).
  { unfold run. rewrite andb_false_r, Hm. unfold review_page.
    by rewrite save_all_annotations_spec, Hflt. }
  assert (Hload : load_annotations (annotator_id st) true fs'
                  = Ok (dict_values (annotations_buffer st))).
  { unfold fs', load_annotations. rewrite Hrun. cbn [fst].
    by rewrite lookup_insert_eq. }
  split; [by rewrite Hrun|]. split; [done|].
  eexists. unfold start_session. cbn [rbind]. rewrite Hload. cbn [rbind].
  split; [reflexivity|]. split; [|done].
  destruct (reachable_self_keyed shuffle slider_accepts json_chunks
              annotator C A st Hsteps) as [Hnd Hsk].
  cbn. by apply dict_by_sample_id_values.
Qed.

(** X11.  The start of a session with respect to the store: an
    annotator without a file starts with an empty buffer and the whole
    catalog as the queue; a file that cannot be read or decoded stops
    the start with the exception, and so does a catalog that cannot be
    loaded: no session is built from an empty list in its place. *)
Theorem start_session_store_edges (annotator : string) (C : list sample)
    (readable : bool) (fs : gmap string string) :
  (fs !! get_annotation_path annotator = None ->
   exists st,
     start_session annotator (Ok C) readable fs = Ok st
     /\ annotations_buffer st = []
     /\ sample_order st ≡ₚ C
     /\ total_samples st = length C)
  /\ (forall text e,
        fs !! get_annotation_path annotator = Some text ->
        json_load text = Raise e ->
        start_session annotator (Ok C) true fs = Raise e)
  /\ (forall text,
        fs !! get_annotation_path annotator = Some text ->
        start_session annotator (Ok C) false fs = Raise OSError)
  /\ (forall e, start_session annotator (Raise e) readable fs = Raise e).
Proof.
  unfold start_session, load_annotations. split_and!.
  - intros ->. eexists. split; [reflexivity|]. cbn.
    split; [done|]. split; [|done]. by rewrite shuffle_perm, filter_no_prior.
  - intros text e -> He. cbn. by rewrite He.
  - by intros text ->.
  - done.
Qed.

End load_facts.

(** ** The annotator gate *)

(** X12.  The gate lets an annotator in exactly when "Continue" is
    pressed with a non-empty id: the selected name in "existing" mode,
    which takes at least one listed annotator, the typed text
    otherwise.  With no annotation file listed, "existing" never starts
    a session. *)
Theorem gate_enters_iff (d : dir_status) (inp : gate_inputs) (a : string) :
  annotator_gate d inp = GateEntered a <->
  g_continue inp = true /\ a ≠ ""
  /\ exists existing,
       get_existing_annotators d = Ok existing
       /\ (if bool_decide (g_radio inp = "existing")
           then existing ≠ [] /\ a = g_selectbox inp
           else a = g_text_input inp).
Proof.
  unfold annotator_gate.
  destruct (get_existing_annotators d) as [existing|e].
  2:{ split; [done|]. by intros (_ & _ & ? & ? & _). }
  destruct (g_continue inp).
  2:{ split; [by repeat case_match|]. by intros [? _]. }
  destruct (bool_decide (g_radio inp = "existing")).
  - destruct (bool_decide (existing = [])) eqn:Hex.
    + apply bool_decide_eq_true in Hex as ->.
      split; [done|]. intros (_ & _ & names & [= <-] & Hne & _). done.
    + apply bool_decide_eq_false in Hex.
      destruct (bool_decide (g_selectbox inp = "")) eqn:Hs.
      * apply bool_decide_eq_true in Hs. split; [done|].
        intros (_ & Ha & names & _ & _ & ->). done.
      * apply bool_decide_eq_false in Hs. split.
        -- intros [= <-]. eauto 10.
        -- by intros (_ & _ & names & _ & _ & ->).
  - destruct (bool_decide (g_text_input inp = "")) eqn:Hs.
    + apply bool_decide_eq_true in Hs. split; [done|].
      intros (_ & Ha & names & _ & ->). done.
    + apply bool_decide_eq_false in Hs. split.
      * intros [= <-]. eauto 10.
      * by intros (_ & _ & names & _ & ->).
Qed.

(** ** The list of existing annotators *)

Lemma endswith_app (a t : string) : endswith (a +:+ t) t = true.
Proof.
  induction a as [|c a IHa].
  - rewrite append_nil_l. destruct t; cbn; by rewrite bool_decide_eq_true_2.
  - rewrite append_cons. cbn [endswith]. rewrite IHa. apply orb_true_r.
Qed.

Lemma replace_scan_cons (old new : string) (c : ascii) (s : string) :
  replace_scan old new 0 (String c s)
  = if String.prefix old (String c s)
    then new +:+ replace_scan old new (String.length old - 1) s
    else String c (replace_scan old new 0 s).
Proof. reflexivity. Qed.

Lemma replace_scan_json_skip (w : string) :
  replace_scan ".json" "" 0 (".json" +:+ w) = replace_scan ".json" "" 0 w.
Proof. destruct w; reflexivity. Qed.

Lemma no_occurrence_tail (old : string) (c : ascii) (s : string) :
  no_occurrence old (String c s) -> no_occurrence old s.
Proof. intros Hno u v ->. by apply (Hno (String c u) v). Qed.

(** No occurrence of ".json" starts inside a string that has none when
    ".json" follows it: the dot is only the first character of it. *)
Lemma prefix_json_false (c : ascii) (a w : string) :
  no_occurrence ".json" (String c a) ->
  String.prefix ".json" (String c (a +:+ ".json" +:+ w)) = false.
Proof.
  intros Hno. cbn [String.prefix].
  destruct (ascii_dec "." c) as [<-|]; [|done].
  destruct a as [|c2 a]; [reflexivity|].
  rewrite append_cons. cbn [String.prefix].
  destruct (ascii_dec "j" c2) as [<-|]; [|done].
  destruct a as [|c3 a]; [reflexivity|].
  rewrite append_cons. cbn [String.prefix].
  destruct (ascii_dec "s" c3) as [<-|]; [|done].
  destruct a as [|c4 a]; [reflexivity|].
  rewrite append_cons. cbn [String.prefix].
  destruct (ascii_dec "o" c4) as [<-|]; [|done].
  destruct a as [|c5 a]; [reflexivity|].
  rewrite append_cons. cbn [String.prefix].
  destruct (ascii_dec "n" c5) as [<-|]; [|done].
  exfalso. by apply (Hno "" a).
Qed.

Lemma replace_scan_no_occurrence (a w : string) :
  no_occurrence ".json" a ->
  replace_scan ".json" "" 0 (a +:+ ".json" +:+ w)
  = a +:+ replace_scan ".json" "" 0 w.
Proof.
  induction a as [|c a IHa]; intros Hno.
  - by rewrite !append_nil_l, replace_scan_json_skip.
  - rewrite !(append_cons c a), replace_scan_cons, prefix_json_false by done.
    rewrite IHa by (by eapply no_occurrence_tail). done.
Qed.

Lemma str_replace_json (s : string) :
  str_replace ".json" "" s = replace_scan ".json" "" 0 s.
Proof. unfold str_replace. by rewrite bool_decide_eq_false_2. Qed.

(** [endswith] holds of the strings that are something followed by the
    suffix. *)
Lemma endswith_spec (s t : string) :
  endswith s t = true <-> exists u, s = u +:+ t.
Proof.
  split; [|intros [u ->]; apply endswith_app].
  induction s as [|c s IHs]; cbn [endswith]; intros Hs.
  - rewrite orb_false_r in Hs. apply bool_decide_eq_true in Hs as <-.
    by exists "".
  - apply orb_true_iff in Hs as [Hs|Hs].
    + apply bool_decide_eq_true in Hs as <-. by exists "".
    + destruct (IHs Hs) as [u ->]. by exists (String c u).
Qed.

(** X13.  An annotator whose id does not contain ".json" is listed by
    its id as soon as its file name [<id>.json] is in the directory;
    every listed name comes from a file name that ends in ".json", and
    a file name without that ending is ignored: the list is the same
    with and without it. *)
Theorem existing_annotator_listed (a : string) (names : list string) :
  no_occurrence ".json" a ->
  (a +:+ ".json") ∈ names ->
  exists l,
    get_existing_annotators (Listing names) = Ok l
    /\ a ∈ l
    /\ (forall x, x ∈ l ->
          exists u, (u +:+ ".json") ∈ names
                    /\ x = str_replace ".json" "" (u +:+ ".json"))
    /\ (forall pre f post,
          names = pre ++ f :: post ->
          (forall u, f ≠ u +:+ ".json") ->
          get_existing_annotators (Listing (pre ++ post)) = Ok l).
Proof.
  intros Hno Hin. eexists. split; [reflexivity|]. split_and!.
  - apply list_elem_of_fmap. exists (a +:+ ".json"). split.
    + rewrite str_replace_json.
      replace (a +:+ ".json") with (a +:+ ".json" +:+ "")
        by (by rewrite append_nil_r).
      rewrite (replace_scan_no_occurrence a "" Hno). cbn [replace_scan].
      by rewrite append_nil_r.
    + apply list_elem_of_filter. split; [apply endswith_app|done].
  - intros x Hx. apply list_elem_of_fmap in Hx as (f & -> & Hf).
    apply list_elem_of_filter in Hf as [Hend Hf].
    apply endswith_spec in Hend as [u ->]. by exists u.
  - intros pre f post -> Hf. cbn [get_existing_annotators]. do 2 f_equal.
    rewrite !filter_app, filter_cons_False; [done|].
    intros [u ->]%endswith_spec. by apply (Hf u).
Qed.

(** X14.  Every occurrence of ".json" is taken out of a file name, not
    the extension alone: the file of the annotator [<id>.json], which
    is [<id>.json.json], is listed as [<id>], the name under which the
    annotator [<id>] is listed. *)
Theorem inner_json_is_dropped_from_listing (a : string) (names : list string) :
  no_occurrence ".json" a ->
  ((a +:+ ".json") +:+ ".json") ∈ names ->
  exists l, get_existing_annotators (Listing names) = Ok l /\ a ∈ l.
Proof.
  intros Hno Hin. eexists. split; [reflexivity|].
  apply list_elem_of_fmap. exists ((a +:+ ".json") +:+ ".json"). split.
  - rewrite str_replace_json, append_assoc.
    rewrite (replace_scan_no_occurrence a ".json" Hno).
    change (replace_scan ".json" "" 0 ".json") with "".
    by rewrite append_nil_r.
  - apply list_elem_of_filter. split; [apply endswith_app|done].
Qed.

(** ** These statements on concrete sessions *)

Lemma no_occurrence_short (s : string) :
  String.length s < 5 -> no_occurrence ".json" s.
Proof.
  intros Hlen u v ->. rewrite !length_append in Hlen. cbn in Hlen. lia.
Qed.

Lemma reviewing3_reachable :
  rtc (step range_slider bracket_chunks) fresh3 reviewing3.
Proof.
  apply (rtc_l _ _ (state_after ClickSave good_inputs fresh3));
    [apply (step_example ClickSave good_inputs); reflexivity|].
  apply (rtc_l _ _ (state_after ClickSave good_inputs
                      (state_after ClickSave good_inputs fresh3)));
    [apply (step_example ClickSave good_inputs); reflexivity|].
  apply rtc_once. apply (step_example ClickSave good_inputs). reflexivity.
Qed.

Lemma resumed_one_saved_reachable :
  rtc (step range_slider bracket_chunks) resumed resumed_one_saved.
Proof.
  apply rtc_once. apply (step_example ClickSave good_inputs). reflexivity.
Qed.

Lemma three_ids_NoDup : NoDup (s_id <$> [S1; S2; S3]).
Proof. vm_compute. repeat constructor; set_solver. Qed.

Lemma plain_ids_have_different_files_witness :
  get_annotation_path "A1" = "annotations/A1.json"
  /\ get_annotation_path "B2" = "annotations/B2.json"
  /\ has_sep "A1.json" = false
  /\ has_sep "B2.json" = false
  /\ "A1.json" ≠ "B2.json".
Proof.
  exact (plain_ids_have_different_files "A1" "B2" ltac:(discriminate)
           eq_refl eq_refl).
Defined.

Lemma store_written_by_final_submit_only_witness :
  (interact range_slider bracket_chunks ClickSave good_inputs fresh3
     old_store).1 = old_store.
Proof.
  apply store_written_by_final_submit_only. left. discriminate.
Defined.


Lemma rerun_changes_nothing_witness :
  current_idx resumed_one_saved <= length (sample_order resumed_one_saved) - 1
  /\ (run range_slider bracket_chunks NoClick good_inputs resumed_one_saved
        old_store).1 = old_store
  /\ session_after
       (run range_slider bracket_chunks NoClick good_inputs resumed_one_saved
          old_store).2 = Some resumed_one_saved.
Proof.
  exact (rerun_changes_nothing keep_order range_slider bracket_chunks "A1"
           [S1; S2; S3] [answer "S1" (PStr "correct") (PInt 4)]
           resumed_one_saved good_inputs old_store
           resumed_one_saved_reachable).
Defined.

Lemma resume_restores_buffer_witness :
  annotations_buffer
    (init_session keep_order "A1" [S1; S2; S3]
       (dict_values (annotations_buffer resumed_one_saved)))
  = annotations_buffer resumed_one_saved.
Proof.
  exact (resume_restores_buffer keep_order range_slider bracket_chunks "A1"
           [S1; S2; S3] [answer "S1" (PStr "correct") (PInt 4)]
           resumed_one_saved "A1" [S1; S2; S3] resumed_one_saved_reachable).
Defined.

Lemma prior_annotations_kept_witness :
  exists new,
    annotations_buffer resumed_one_saved
    = [(IdStr "S1", answer "S1" (PStr "correct") (PInt 4))] ++ new
    /\ forall k, k ∈ dict_keys new ->
         k ∈ s_id <$> sample_order resumed_one_saved
         /\ k ∉ a_sample_id <$> [answer "S1" (PStr "correct") (PInt 4)].
Proof.
  exact (prior_annotations_kept keep_order range_slider bracket_chunks
           keep_order_perm "A1" [S1; S2; S3]
           [answer "S1" (PStr "correct") (PInt 4)] resumed_one_saved
           resumed_one_saved_reachable).
Defined.

Lemma fresh_review_is_complete_witness :
  queue_fully_answered reviewing3 = true
  /\ Forall (fun e => e.1.1 = false) (review_labels reviewing3).
Proof.
  exact (fresh_review_is_complete keep_order range_slider bracket_chunks
           keep_order_perm "A1" [S1; S2; S3] reviewing3 three_ids_NoDup
           reviewing3_reachable eq_refl).
Defined.

Lemma answered_session_resumes_empty_witness :
  let st2 := init_session keep_order "A1" [S1; S2; S3]
               (dict_values (annotations_buffer reviewing3)) in
  sample_order st2 = [] /\ done st2 = 3 /\ total st2 = 3.
Proof.
  exact (answered_session_resumes_empty keep_order range_slider bracket_chunks
           keep_order_perm "A1" [S1; S2; S3] reviewing3 "A1" three_ids_NoDup
           reviewing3_reachable eq_refl).
Defined.

Lemma saved_answer_reopens_witness :
  exists st',
    run range_slider bracket_chunks ClickSave good_inputs fresh3 ∅
      = (∅, Rerun st')
    /\ forall inp', in_media_loads inp' = true ->
         exists f', render_form range_slider (anomaly_of S1)
                      (dict_get (s_id S1) (annotations_buffer st')) inp'
                    = Ok f'.
Proof.
  exact (saved_answer_reopens range_slider bracket_chunks
           range_slider_takes_range fresh3 good_inputs ∅ S1 _
           eq_refl eq_refl eq_refl eq_refl).
Defined.

Lemma final_submit_then_start_witness :
  let fs' := (run range_slider bracket_chunks ClickFinalSubmit good_inputs
                reviewing3 old_store).1 in
  (run range_slider bracket_chunks ClickFinalSubmit good_inputs reviewing3
     old_store).2 = Cleared
  /\ load_annotations bracket_load "A1" true fs'
     = Ok (dict_values (annotations_buffer reviewing3))
  /\ exists st2,
       start_session keep_order bracket_load "A1" (Ok [S1; S2; S3]) true fs'
         = Ok st2
       /\ annotations_buffer st2 = annotations_buffer reviewing3
       /\ total_samples st2 = 3.
Proof.
  exact (final_submit_then_start keep_order range_slider bracket_chunks
           bracket_load "A1" [S1; S2; S3] [] reviewing3 good_inputs old_store
           [S1; S2; S3] reviewing3_reachable eq_refl eq_refl eq_refl).
Defined.

Lemma start_session_store_edges_witness :
  exists st,
    start_session keep_order bracket_load "B2" (Ok [S1; S2; S3]) true old_store
      = Ok st
    /\ annotations_buffer st = []
    /\ sample_order st ≡ₚ [S1; S2; S3]
    /\ total_samples st = 3.
Proof.
  destruct (start_session_store_edges keep_order bracket_load keep_order_perm
              "B2" [S1; S2; S3] true old_store) as [Hmissing _].
  apply Hmissing. reflexivity.
Defined.

Lemma existing_annotator_listed_witness :
  exists l,
    get_existing_annotators (Listing ["notes.txt"; "A1.json"]) = Ok l
    /\ "A1" ∈ l
    /\ get_existing_annotators (Listing ["A1.json"]) = Ok l.
Proof.
  destruct (existing_annotator_listed "A1" ["notes.txt"; "A1.json"])
    as (l & Hl & Hin & _ & Hignored).
  - apply no_occurrence_short. vm_compute. lia.
  - apply elem_of_cons. right. apply elem_of_cons. by left.
  - exists l. split; [exact Hl|]. split; [exact Hin|].
    apply (Hignored [] "notes.txt" ["A1.json"]); [reflexivity|].
    intros u Hu. apply (f_equal (fun s => endswith s ".json")) in Hu.
    rewrite endswith_app in Hu. vm_compute in Hu. discriminate Hu.
Defined.

Lemma inner_json_is_dropped_from_listing_witness :
  exists l,
    get_existing_annotators (Listing ["A1.json.json"]) = Ok l /\ "A1" ∈ l.
Proof.
  apply inner_json_is_dropped_from_listing.
  - apply no_occurrence_short. vm_compute. lia.
  - apply elem_of_cons. by left.
Defined.
